(** * TimeTrack: the face-recognition-gated time clock

    A shallow embedding of [frontend/static/js/timeclock-handler.js] (the
    page logic) together with the helpers of
    [frontend/static/js/face-recognition.js] it calls ([stopCamera],
    [initializeCamera], [recognizeFace], [clockInWithFace],
    [clockOutWithFace]).

    The page is one closure: a handful of [let] variables, a set of DOM
    elements and [async] handlers.  The closure variables and the DOM
    properties the handlers write are the fields of [State]; every [async]
    function is cut at its [await]s into segments [f_1], [f_2], ... each of
    which is a function on [State]; a suspended call is an [Await] in the
    field [tasks] of the state, and the event loop is the function [step]. *)

From Stdlib Require Import ZArith NArith List String Bool Lia.
From Stdlib Require Import Floats.SpecFloat.
Import ListNotations.
Local Open Scope string_scope.
Local Open Scope list_scope.
Local Open Scope Z_scope.

(** ** JavaScript numbers

    A JS Number is an IEEE-754 binary64 value; [spec_float] is the
    Standard Library's executable specification of those. *)

Module JS.

Definition number := spec_float.

(** The literal [0].  *)
Definition zero : number := S754_zero false.

(** [ToBoolean] on a Number: [+0], [-0] and [NaN] are falsy. *)
Definition truthy (n : number) : bool :=
  match n with
  | S754_zero _ | S754_nan => false
  | _ => true
  end.

(** [v || 0] where [v] is a property that is absent ([undefined]) or holds
    a Number. *)
Definition or_zero (v : option number) : number :=
  match v with
  | Some n => if truthy n then n else zero
  | None => zero
  end.

(** [a < b] and [a >= b] on Numbers (false whenever a NaN is involved). *)
Definition lt (a b : number) : bool := SFltb a b.
Definition ge (a b : number) : bool := SFleb b a.

End JS.

(** The literal [0.3]: the binary64 value nearest to 3/10,
    [5404319552844595 * 2^-54] (bit pattern [0x3FD3333333333333]).  It is
    also what a JSON response holding [0.3] or [0.30] parses to. *)
Definition MIN_CONFIDENCE : JS.number :=
  S754_finite false 5404319552844595 (-54).

(** ** Data exchanged with the collaborators *)

(** ['clock-in'] and ['clock-out']. *)
Inductive Action := ClockIn | ClockOut.

(** A face descriptor (a [Float32Array]) and a JPEG data URL. *)
Definition Descriptor := list JS.number.
Definition Image := string.

(** [capturedData = { descriptor, imageDataUrl }]. *)
Record Sample := { descriptor : Descriptor; imageDataUrl : Image }.

(** What [captureFaceFromVideo] resolves to. *)
Inductive CaptureResult :=
| CaptureOk (d : Descriptor) (img : Image)
| CaptureErr (error : string).

(** What [initializeCamera] resolves to (the stream itself is kept in
    [video.srcObject]). *)
Inductive CameraResult :=
| CameraOk
| CameraErr (error : string).

(** The body of a [/face/recognize] answer; [confidence] may be missing. *)
Record Employee := { employee_name : string; confidence : option JS.number }.

(** What [recognizeFace] resolves to:
    [{success: true, data}] or [{success: false, error}]. *)
Inductive RecognizeResult :=
| RecOk (data : Employee)
| RecErr (error : option string).

(** What [apiPost('/face/add-appearance', ...)] does: resolve with a body
    whose [success] is truthy, resolve with one whose [success] is falsy, or
    throw. *)
Inductive AddResult :=
| AddOk (total_registrations : Z)
| AddFail (error : option string)
| AddThrow (message : string).

(** The body of a successful clock-in / clock-out answer. *)
Record ClockData := {
  cd_employee_name : string;
  auto_clockout : bool;
  cd_message : option string;
  clock_in_time : option Z;
  clock_out_time : option Z;
  hours_worked : option string
}.

(** What [clockInWithFace] / [clockOutWithFace] resolve to. *)
Inductive ClockResult :=
| ClockOk (data : ClockData)
| ClockErr (error : option string) (error_code : option string)
           (metadata : option (Z * Z)).

(** A time of day as [split(':').map(Number)] yields it: hour and minute. *)
Record HHMM := { hh : Z; mm : Z }.

(** An element of the [/stores/] answer.  [None] stands for a falsy
    [opening_time] / [closing_time] (missing, [null] or the empty string). *)
Record Store := {
  name : string;
  opening_time : option HHMM;
  closing_time : option HHMM;
  timezone : option string
}.

(** What [apiGet("/stores/")] does: resolve with the list or throw. *)
Inductive StoresResult :=
| StoresOk (stores : list Store)
| StoresThrow.

(** [storeHours = { opening_time, closing_time, timezone }]. *)
Record StoreHours := {
  sh_opening_time : HHMM;
  sh_closing_time : HHMM;
  sh_timezone : string
}.

(** ** The page: DOM properties, dialogs and outbound calls *)

(** [style.display] of a container. *)
Inductive Display := DNone | DBlock | DFlex.

(** The three properties the handlers set on a button. *)
Record Button := { disabled : bool; opacity : string; cursor : string }.

Definition btn_on : Button :=
  {| disabled := false; opacity := "1"; cursor := "pointer" |}.
Definition btn_off : Button :=
  {| disabled := true; opacity := "0.5"; cursor := "not-allowed" |}.

(** The colours passed to [updateStatus]:
    [#007bff], [#28a745], [#dc3545], [#6c757d]. *)
Inductive Color := Blue | Green | Red | Grey.

(** The texts passed to [updateStatus], one constructor per template. *)
Inductive Status :=
| StAllowed (wstart wend : Z)     (* Clock in/out allowed: S - E *)
| StAllowedFrom (wstart wend : Z) (* Clock in/out allowed from S to E (store time) *)
| StPosition (label : string)     (* Position your face in the camera for L *)
| StLoadingModels                 (* Loading face recognition models... *)
| StReadyCamera                   (* Ready! Position your face in the camera *)
| StReady                         (* Ready to Clock In or Clock Out *)
| StDetecting                     (* Detecting face... *)
| StRecognizing                   (* Recognizing face... *)
| StLowConfidence                 (* Face not recognized. Please contact your manager to register your face. *)
| StRecognized (who : string)     (* Face recognized: N *)
| StNotRecognized                 (* Face not recognized. Cannot proceed until recognized. *)
| StAdding                        (* Adding new appearance... *)
| StRetrying                      (* Retrying face recognition... *)
| StStillLow                      (* Face still not recognized. Please contact your manager. *)
| StStillNot                      (* Face still not recognized. Please retake photo. *)
| StVerifying                     (* Verifying face recognition... *)
| StProcessing                    (* Processing... *)
| StSuccess (actionText : string) (* T Successfully! *)
| StFailed (errorMsg : string).   (* Failed: M *)

(** What [recognitionResult.innerHTML] is set to, one constructor per
    template; a confidence is kept as the number the percentage is printed
    from. *)
Inductive Panel :=
| PanelStatic                                     (* markup of the page as served *)
| PanelLowConfidence (who : string) (c : JS.number) (* Low Confidence Match *)
| PanelRecognized (who : string) (c : JS.number)  (* Face Recognized *)
| PanelNotRecognized (why : string)               (* Face Not Recognized *)
| PanelStillLow (c : JS.number)                   (* Still Low Confidence *)
| PanelStillNot.                                  (* Still Not Recognized *)

(** The texts of the dialogs. *)
Inductive Message :=
| MsgCameraFailed (error : string)  (* Failed to access camera: E *)
| MsgModelsFailed                   (* Failed to load face recognition models. ... *)
| MsgDetectFailed (error : string)  (* Failed to detect face: E ... *)
| MsgEnterName                      (* Please enter your name *)
| MsgNoFaceData                     (* No face data captured. Please retake photo. *)
| MsgAppearanceAdded (total : Z)    (* New appearance added successfully! ... *)
| MsgAddFailed (error : string)     (* Failed to add appearance: E *)
| MsgNoFaceCaptured                 (* No face data captured *)
| MsgVerifyFailed                   (* Face not recognized. Please ensure ... *)
| MsgAutoClockout (text : string)   (* Auto clocked out: M *)
| MsgClockSuccess (actionText who : string) (time : option Z)
                  (hours : option string)
| MsgClockFailed (what : string) (errorMsg : string) (window : option (Z * Z)).

Inductive Title :=
| TitleNone | TitleFaceDetectionFailed | TitleStoreHoursRestriction | TitleError.

(** Everything the page does to the outside, in the order it happens. *)
Inductive Effect :=
| GetUserMedia                                   (* navigator.mediaDevices.getUserMedia *)
| StopTracks                                     (* track.stop() on the stream *)
| LoadModels                                     (* loadFaceApiModels() *)
| CaptureFrame                                   (* captureFaceFromVideo(video) *)
| ApiRecognize (d : Descriptor) (store : string) (* POST /face/recognize *)
| ApiAddAppearance (who : string) (d : Descriptor) (img : Image)
| ApiClockIn (d : Descriptor) (img : Image) (store : string)
| ApiClockOut (d : Descriptor) (img : Image) (store : string)
| ApiGetStores                                   (* GET /stores/ *)
| ShowError (m : Message) (t : Title)
| ShowInfo (m : Message)
| ShowWarning (m : Message)
| SetTimeoutClockStatus                          (* setTimeout(fetchCurrentClockStatus, 1000) *)
| UnhandledRejection.                            (* an exception leaving an async handler *)

(** A suspended [async] call: the [await] it waits at. *)
Inductive Await :=
| AwInitCamera     (* showCamera: await initializeCamera(video) *)
| AwLoadModels     (* showCamera: await loadFaceApiModels() *)
| AwCapture        (* captureFace: await captureFaceFromVideo(video) *)
| AwRecognize      (* captureFace: await recognizeFace(result.descriptor, storeId) *)
| AwAddAppearance  (* add-appearance listener: await apiPost('/face/add-appearance', ...) *)
| AwRetry          (* add-appearance listener: await recognizeFace(capturedData.descriptor, storeId) *)
| AwVerify         (* confirmAndProcess: await recognizeFace(capturedData.descriptor, storeId) *)
| AwClock          (* confirmAndProcess: await clockInWithFace / clockOutWithFace *)
| AwStores.        (* fetchStoreHours: await apiGet("/stores/") *)

(** The closure of the [DOMContentLoaded] handler.  The page elements the
    handler looks up at its start are taken to exist; [addAppearanceBtn],
    looked up when a face is not recognised, is [None] when the document
    has no such element and [Some n] when it has one with [n] click
    listeners.  [video_srcObject] is whether [video.srcObject] holds a live
    stream.  Time values are milliseconds (see [Date] below). *)
Record State := {
  storeId : string;
  currentAction : option Action;
  capturedData : option Sample;
  storeHours : option StoreHours;
  clockWindowStart : option Z;
  clockWindowEnd : option Z;
  video_srcObject : bool;
  clockButtons_display : Display;
  cameraContainer_display : Display;
  photoPreview_display : Display;
  capturedPhoto_src : option Image;
  confirmPhotoBtn : Button;
  clockInBtn : Button;
  clockOutBtn : Button;
  recognitionResult : Panel;
  statusText : Status * Color;
  loadingIndicator_display : Display;
  addAppearanceBtn : option nat;
  effects : list Effect;
  tasks : list Await
}.

(** Field updates. *)

Definition set_currentAction (v : option Action) (s : State) : State :=
  Build_State (storeId s) v (capturedData s) (storeHours s)
    (clockWindowStart s) (clockWindowEnd s) (video_srcObject s)
    (clockButtons_display s) (cameraContainer_display s)
    (photoPreview_display s) (capturedPhoto_src s) (confirmPhotoBtn s)
    (clockInBtn s) (clockOutBtn s) (recognitionResult s) (statusText s)
    (loadingIndicator_display s) (addAppearanceBtn s) (effects s) (tasks s).

Definition set_capturedData (v : option Sample) (s : State) : State :=
  Build_State (storeId s) (currentAction s) v (storeHours s)
    (clockWindowStart s) (clockWindowEnd s) (video_srcObject s)
    (clockButtons_display s) (cameraContainer_display s)
    (photoPreview_display s) (capturedPhoto_src s) (confirmPhotoBtn s)
    (clockInBtn s) (clockOutBtn s) (recognitionResult s) (statusText s)
    (loadingIndicator_display s) (addAppearanceBtn s) (effects s) (tasks s).

Definition set_storeHours (v : option StoreHours) (s : State) : State :=
  Build_State (storeId s) (currentAction s) (capturedData s) v
    (clockWindowStart s) (clockWindowEnd s) (video_srcObject s)
    (clockButtons_display s) (cameraContainer_display s)
    (photoPreview_display s) (capturedPhoto_src s) (confirmPhotoBtn s)
    (clockInBtn s) (clockOutBtn s) (recognitionResult s) (statusText s)
    (loadingIndicator_display s) (addAppearanceBtn s) (effects s) (tasks s).

Definition set_clockWindowStart (v : option Z) (s : State) : State :=
  Build_State (storeId s) (currentAction s) (capturedData s) (storeHours s)
    v (clockWindowEnd s) (video_srcObject s) (clockButtons_display s)
    (cameraContainer_display s) (photoPreview_display s) (capturedPhoto_src
    s) (confirmPhotoBtn s) (clockInBtn s) (clockOutBtn s) (recognitionResult
    s) (statusText s) (loadingIndicator_display s) (addAppearanceBtn s)
    (effects s) (tasks s).

Definition set_clockWindowEnd (v : option Z) (s : State) : State :=
  Build_State (storeId s) (currentAction s) (capturedData s) (storeHours s)
    (clockWindowStart s) v (video_srcObject s) (clockButtons_display s)
    (cameraContainer_display s) (photoPreview_display s) (capturedPhoto_src
    s) (confirmPhotoBtn s) (clockInBtn s) (clockOutBtn s) (recognitionResult
    s) (statusText s) (loadingIndicator_display s) (addAppearanceBtn s)
    (effects s) (tasks s).

Definition set_video_srcObject (v : bool) (s : State) : State :=
  Build_State (storeId s) (currentAction s) (capturedData s) (storeHours s)
    (clockWindowStart s) (clockWindowEnd s) v (clockButtons_display s)
    (cameraContainer_display s) (photoPreview_display s) (capturedPhoto_src
    s) (confirmPhotoBtn s) (clockInBtn s) (clockOutBtn s) (recognitionResult
    s) (statusText s) (loadingIndicator_display s) (addAppearanceBtn s)
    (effects s) (tasks s).

Definition set_clockButtons_display (v : Display) (s : State) : State :=
  Build_State (storeId s) (currentAction s) (capturedData s) (storeHours s)
    (clockWindowStart s) (clockWindowEnd s) (video_srcObject s) v
    (cameraContainer_display s) (photoPreview_display s) (capturedPhoto_src
    s) (confirmPhotoBtn s) (clockInBtn s) (clockOutBtn s) (recognitionResult
    s) (statusText s) (loadingIndicator_display s) (addAppearanceBtn s)
    (effects s) (tasks s).

Definition set_cameraContainer_display (v : Display) (s : State) : State :=
  Build_State (storeId s) (currentAction s) (capturedData s) (storeHours s)
    (clockWindowStart s) (clockWindowEnd s) (video_srcObject s)
    (clockButtons_display s) v (photoPreview_display s) (capturedPhoto_src
    s) (confirmPhotoBtn s) (clockInBtn s) (clockOutBtn s) (recognitionResult
    s) (statusText s) (loadingIndicator_display s) (addAppearanceBtn s)
    (effects s) (tasks s).

Definition set_photoPreview_display (v : Display) (s : State) : State :=
  Build_State (storeId s) (currentAction s) (capturedData s) (storeHours s)
    (clockWindowStart s) (clockWindowEnd s) (video_srcObject s)
    (clockButtons_display s) (cameraContainer_display s) v
    (capturedPhoto_src s) (confirmPhotoBtn s) (clockInBtn s) (clockOutBtn s)
    (recognitionResult s) (statusText s) (loadingIndicator_display s)
    (addAppearanceBtn s) (effects s) (tasks s).

Definition set_capturedPhoto_src (v : option Image) (s : State) : State :=
  Build_State (storeId s) (currentAction s) (capturedData s) (storeHours s)
    (clockWindowStart s) (clockWindowEnd s) (video_srcObject s)
    (clockButtons_display s) (cameraContainer_display s)
    (photoPreview_display s) v (confirmPhotoBtn s) (clockInBtn s)
    (clockOutBtn s) (recognitionResult s) (statusText s)
    (loadingIndicator_display s) (addAppearanceBtn s) (effects s) (tasks s).

Definition set_confirmPhotoBtn (v : Button) (s : State) : State :=
  Build_State (storeId s) (currentAction s) (capturedData s) (storeHours s)
    (clockWindowStart s) (clockWindowEnd s) (video_srcObject s)
    (clockButtons_display s) (cameraContainer_display s)
    (photoPreview_display s) (capturedPhoto_src s) v (clockInBtn s)
    (clockOutBtn s) (recognitionResult s) (statusText s)
    (loadingIndicator_display s) (addAppearanceBtn s) (effects s) (tasks s).

Definition set_clockInBtn (v : Button) (s : State) : State :=
  Build_State (storeId s) (currentAction s) (capturedData s) (storeHours s)
    (clockWindowStart s) (clockWindowEnd s) (video_srcObject s)
    (clockButtons_display s) (cameraContainer_display s)
    (photoPreview_display s) (capturedPhoto_src s) (confirmPhotoBtn s) v
    (clockOutBtn s) (recognitionResult s) (statusText s)
    (loadingIndicator_display s) (addAppearanceBtn s) (effects s) (tasks s).

Definition set_clockOutBtn (v : Button) (s : State) : State :=
  Build_State (storeId s) (currentAction s) (capturedData s) (storeHours s)
    (clockWindowStart s) (clockWindowEnd s) (video_srcObject s)
    (clockButtons_display s) (cameraContainer_display s)
    (photoPreview_display s) (capturedPhoto_src s) (confirmPhotoBtn s)
    (clockInBtn s) v (recognitionResult s) (statusText s)
    (loadingIndicator_display s) (addAppearanceBtn s) (effects s) (tasks s).

Definition set_recognitionResult (v : Panel) (s : State) : State :=
  Build_State (storeId s) (currentAction s) (capturedData s) (storeHours s)
    (clockWindowStart s) (clockWindowEnd s) (video_srcObject s)
    (clockButtons_display s) (cameraContainer_display s)
    (photoPreview_display s) (capturedPhoto_src s) (confirmPhotoBtn s)
    (clockInBtn s) (clockOutBtn s) v (statusText s)
    (loadingIndicator_display s) (addAppearanceBtn s) (effects s) (tasks s).

Definition set_statusText (v : Status * Color) (s : State) : State :=
  Build_State (storeId s) (currentAction s) (capturedData s) (storeHours s)
    (clockWindowStart s) (clockWindowEnd s) (video_srcObject s)
    (clockButtons_display s) (cameraContainer_display s)
    (photoPreview_display s) (capturedPhoto_src s) (confirmPhotoBtn s)
    (clockInBtn s) (clockOutBtn s) (recognitionResult s) v
    (loadingIndicator_display s) (addAppearanceBtn s) (effects s) (tasks s).

Definition set_loadingIndicator_display (v : Display) (s : State) : State :=
  Build_State (storeId s) (currentAction s) (capturedData s) (storeHours s)
    (clockWindowStart s) (clockWindowEnd s) (video_srcObject s)
    (clockButtons_display s) (cameraContainer_display s)
    (photoPreview_display s) (capturedPhoto_src s) (confirmPhotoBtn s)
    (clockInBtn s) (clockOutBtn s) (recognitionResult s) (statusText s) v
    (addAppearanceBtn s) (effects s) (tasks s).

Definition set_addAppearanceBtn (v : option nat) (s : State) : State :=
  Build_State (storeId s) (currentAction s) (capturedData s) (storeHours s)
    (clockWindowStart s) (clockWindowEnd s) (video_srcObject s)
    (clockButtons_display s) (cameraContainer_display s)
    (photoPreview_display s) (capturedPhoto_src s) (confirmPhotoBtn s)
    (clockInBtn s) (clockOutBtn s) (recognitionResult s) (statusText s)
    (loadingIndicator_display s) v (effects s) (tasks s).

Definition set_effects (v : list Effect) (s : State) : State :=
  Build_State (storeId s) (currentAction s) (capturedData s) (storeHours s)
    (clockWindowStart s) (clockWindowEnd s) (video_srcObject s)
    (clockButtons_display s) (cameraContainer_display s)
    (photoPreview_display s) (capturedPhoto_src s) (confirmPhotoBtn s)
    (clockInBtn s) (clockOutBtn s) (recognitionResult s) (statusText s)
    (loadingIndicator_display s) (addAppearanceBtn s) v (tasks s).

Definition set_tasks (v : list Await) (s : State) : State :=
  Build_State (storeId s) (currentAction s) (capturedData s) (storeHours s)
    (clockWindowStart s) (clockWindowEnd s) (video_srcObject s)
    (clockButtons_display s) (cameraContainer_display s)
    (photoPreview_display s) (capturedPhoto_src s) (confirmPhotoBtn s)
    (clockInBtn s) (clockOutBtn s) (recognitionResult s) (statusText s)
    (loadingIndicator_display s) (addAppearanceBtn s) (effects s) v.

(** ** Dates

    A [Date] is represented by its local time value in milliseconds, the
    quantity [LocalTime(t)] of the language definition, on which
    [getFullYear], [getDate], [setHours] and [setDate] work.  The offset of
    the local zone is taken to be constant over the days involved, so that
    comparing two dates is comparing their local time values. *)

Module Date.

Definition msPerMinute : Z := 60000.
Definition msPerHour : Z := 3600000.
Definition msPerDay : Z := 86400000.

Definition Day (t : Z) : Z := t / msPerDay.
Definition TimeWithinDay (t : Z) : Z := t mod msPerDay.

Definition MakeTime (hour min sec ms : Z) : Z :=
  hour * msPerHour + min * msPerMinute + sec * 1000 + ms.
Definition MakeDate (day time : Z) : Z := day * msPerDay + time.

(** [new Date(d.getFullYear(), d.getMonth(), d.getDate())]: local midnight
    of the day of [d]. *)
Definition startOfDay (d : Z) : Z := MakeDate (Day d) 0.

(** [d.setHours(hour, min, sec, ms)]: the fields may lie outside their
    usual range and carry over. *)
Definition setHours (d hour min sec ms : Z) : Z :=
  MakeDate (Day d) (MakeTime hour min sec ms).

(** [d.setDate(d.getDate() + n)]: the same time of day, [n] days later. *)
Definition addDate (d n : Z) : Z := MakeDate (Day d + n) (TimeWithinDay d).

End Date.

(** ** Small helpers *)

Notation "s |> f" := (f s) (at level 50, left associativity, only parsing).

(** [v || d] where [v] is absent or a string (the empty string is falsy). *)
Definition or_str (v : option string) (d : string) : string :=
  match v with
  | Some x => if (x =? "")%string then d else x
  | None => d
  end.

Definition emit (e : Effect) (s : State) : State :=
  set_effects (effects s ++ [e]) s.

Definition suspend (a : Await) (s : State) : State :=
  set_tasks (tasks s ++ [a]) s.

Definition showError (m : Message) (t : Title) : State -> State :=
  emit (ShowError m t).
Definition showInfo (m : Message) : State -> State := emit (ShowInfo m).
Definition showWarning (m : Message) : State -> State := emit (ShowWarning m).

Definition showLoading (show : bool) : State -> State :=
  set_loadingIndicator_display (if show then DBlock else DNone).

Definition updateStatus (text : Status) (color : Color) : State -> State :=
  set_statusText (text, color).

(** [stopCamera(video)] of face-recognition.js. *)
Definition stopCamera (s : State) : State :=
  if video_srcObject s
  then s |> emit StopTracks |> set_video_srcObject false
  else s.

(** ** Store hours and the clock window *)

(** The test of the overnight branch:
    [closeHour < openHour || (closeHour === openHour && closeMin < openMin)]. *)
Definition overnight (open close : HHMM) : bool :=
  (hh close <? hh open) || ((hh close =? hh open) && (mm close <? mm open)).

(** The value [clockWindowStart] gets in [fetchStoreHours]. *)
Definition windowStart (open : HHMM) (now : Z) : Z :=
  let today := Date.startOfDay now in
  Date.setHours today (hh open) (mm open - 30) 0 0.

(** The value [clockWindowEnd] gets in [fetchStoreHours]. *)
Definition windowEnd (open close : HHMM) (now : Z) : Z :=
  let today := Date.startOfDay now in
  let e := Date.setHours today (hh close) (mm close + 30) 0 0 in
  if overnight open close then Date.addDate e 1 else e.

(** [updateClockButtonsState()]; [now] is what [new Date()] reads. *)
Definition updateClockButtonsState (now : Z) (s : State) : State :=
  match storeHours s, clockWindowStart s, clockWindowEnd s with
  | Some _, Some wstart, Some wend =>
      let isWithinWindow := (wstart <=? now) && (now <=? wend) in
      if isWithinWindow then
        s |> set_clockInBtn btn_on
          |> set_clockOutBtn btn_on
          |> updateStatus (StAllowed wstart wend) Green
      else
        s |> set_clockInBtn btn_off
          |> set_clockOutBtn btn_off
          |> updateStatus (StAllowedFrom wstart wend) Red
  | _, _, _ =>
      s |> set_clockInBtn btn_on |> set_clockOutBtn btn_on
  end.

(** [fetchStoreHours()] up to [await apiGet("/stores/")]. *)
Definition fetchStoreHours_1 (s : State) : State :=
  s |> emit ApiGetStores |> suspend AwStores.

(** [fetchStoreHours()] from the answer on.  [now] is read by the function
    itself and [now'] by the [updateClockButtonsState] it ends with. *)
Definition fetchStoreHours_2 (r : StoresResult) (now now' : Z) (s : State)
  : State :=
  match r with
  | StoresOk stores =>
      let currentStore := find (fun st => (name st =? storeId s)%string) stores in
      match currentStore with
      | Some {| opening_time := Some open; closing_time := Some close;
                timezone := tz |} =>
          s |> set_storeHours
                 (Some {| sh_opening_time := open; sh_closing_time := close;
                          sh_timezone := or_str tz "UTC" |})
            |> set_clockWindowStart (Some (windowStart open now))
            |> set_clockWindowEnd (Some (windowEnd open close now))
            |> updateClockButtonsState now'
      | _ =>
          s |> set_storeHours None
            |> set_clockWindowStart None
            |> set_clockWindowEnd None
            |> updateClockButtonsState now'
      end
  | StoresThrow =>
      s |> set_storeHours None |> updateClockButtonsState now'
  end.

(** ** Camera handlers *)

(** [hideCamera()]. *)
Definition hideCamera (s : State) : State :=
  s |> stopCamera
    |> set_cameraContainer_display DNone
    |> set_photoPreview_display DNone
    |> set_clockButtons_display DFlex
    |> set_confirmPhotoBtn btn_on
    |> set_currentAction None
    |> set_capturedData None
    |> updateStatus StReady Grey.

(** [action === 'clock-in' ? 'Clock In' : 'Clock Out']. *)
Definition actionLabel (action : option Action) : string :=
  match action with Some ClockIn => "Clock In" | _ => "Clock Out" end.

(** [showCamera(action)] up to [await initializeCamera(video)]. *)
Definition showCamera_1 (action : option Action) (s : State) : State :=
  s |> set_currentAction action
    |> set_clockButtons_display DNone
    |> set_photoPreview_display DNone
    |> set_cameraContainer_display DBlock
    |> updateStatus (StPosition (actionLabel action)) Blue
    |> emit GetUserMedia
    |> suspend AwInitCamera.

(** [showCamera] from the camera answer to [await loadFaceApiModels()];
    [initializeCamera] has put the stream in [video.srcObject] when it
    succeeded. *)
Definition showCamera_2 (result : CameraResult) (s : State) : State :=
  match result with
  | CameraErr error =>
      s |> showError (MsgCameraFailed error) TitleNone |> hideCamera
  | CameraOk =>
      s |> set_video_srcObject true
        |> showLoading true
        |> updateStatus StLoadingModels Blue
        |> emit LoadModels
        |> suspend AwLoadModels
  end.

(** [showCamera] from the models answer on. *)
Definition showCamera_3 (modelsLoaded : bool) (s : State) : State :=
  let s := showLoading false s in
  if modelsLoaded
  then s |> updateStatus StReadyCamera Green
  else s |> showError MsgModelsFailed TitleNone |> hideCamera.

(** ** Capture and recognition *)

(** [addAppearanceBtn.addEventListener('click', ...)], guarded by
    [if (addAppearanceBtn)]. *)
Definition addListener (s : State) : State :=
  match addAppearanceBtn s with
  | Some n => set_addAppearanceBtn (Some (S n)) s
  | None => s
  end.

(** [captureFace()] up to [await captureFaceFromVideo(video)]. *)
Definition captureFace_1 (s : State) : State :=
  s |> showLoading true
    |> updateStatus StDetecting Blue
    |> emit CaptureFrame
    |> suspend AwCapture.

(** [captureFace] from the captured frame to
    [await recognizeFace(result.descriptor, storeId)]. *)
Definition captureFace_2 (result : CaptureResult) (s : State) : State :=
  let s := showLoading false s in
  match result with
  | CaptureErr error =>
      s |> showError (MsgDetectFailed error) TitleFaceDetectionFailed
  | CaptureOk d img =>
      s |> set_capturedData (Some {| descriptor := d; imageDataUrl := img |})
        |> stopCamera
        |> set_cameraContainer_display DNone
        |> set_photoPreview_display DBlock
        |> set_capturedPhoto_src (Some img)
        |> set_confirmPhotoBtn btn_off
        |> updateStatus StRecognizing Blue
        |> showLoading true
        |> emit (ApiRecognize d (storeId s))
        |> suspend AwRecognize
  end.

(** [captureFace] from the recognition answer on.  The local
    [faceRecognized] is written and never read; it is left out. *)
Definition captureFace_3 (recognizeResult : RecognizeResult) (s : State)
  : State :=
  let s := showLoading false s in
  match recognizeResult with
  | RecOk employee =>
      let c := JS.or_zero (confidence employee) in
      if JS.lt c MIN_CONFIDENCE then
        s |> set_confirmPhotoBtn btn_off
          |> set_recognitionResult
               (PanelLowConfidence (employee_name employee) c)
          |> updateStatus StLowConfidence Red
      else
        s |> set_recognitionResult
               (PanelRecognized (employee_name employee) c)
          |> set_confirmPhotoBtn btn_on
          |> updateStatus (StRecognized (employee_name employee)) Green
  | RecErr error =>
      s |> set_confirmPhotoBtn btn_off
        |> set_recognitionResult
             (PanelNotRecognized
                (or_str error
                   "Face not recognized. You cannot clock in/out until your face is recognized."))
        |> addListener
        |> updateStatus StNotRecognized Red
  end.

(** ** The add-appearance listener

    [employeeName] is the trimmed value of the name input, [None] when the
    input is not in the document. *)

(** The listener up to [await apiPost('/face/add-appearance', ...)]. *)
Definition addAppearance_1 (employeeName : option string) (s : State)
  : State :=
  match employeeName with
  | None => s |> showError MsgEnterName TitleNone
  | Some who =>
      if (who =? "")%string then s |> showError MsgEnterName TitleNone
      else
        match capturedData s with
        | None => s |> showError MsgNoFaceData TitleNone
        | Some sample =>
            s |> showLoading true
              |> updateStatus StAdding Blue
              |> emit (ApiAddAppearance who (descriptor sample)
                         (imageDataUrl sample))
              |> suspend AwAddAppearance
        end
  end.

(** The listener from the enrollment answer to
    [await recognizeFace(capturedData.descriptor, storeId)].  Reading
    [capturedData.descriptor] when [capturedData] is [null] throws inside
    the [try] and lands in its [catch]. *)
Definition addAppearance_2 (data : AddResult) (s : State) : State :=
  match data with
  | AddThrow message =>
      s |> showLoading false |> showError (MsgAddFailed message) TitleNone
  | AddFail error =>
      s |> showLoading false
        |> showError (MsgAddFailed (or_str error "Unknown error")) TitleNone
  | AddOk total =>
      let s := s |> showLoading false
                 |> showInfo (MsgAppearanceAdded total)
                 |> showLoading true
                 |> updateStatus StRetrying Blue in
      match capturedData s with
      | Some sample =>
          s |> emit (ApiRecognize (descriptor sample) (storeId s))
            |> suspend AwRetry
      | None =>
          s |> showLoading false
            |> showError
                 (MsgAddFailed
                    "Cannot read properties of null (reading 'descriptor')")
                 TitleNone
      end
  end.

(** The listener from the second recognition answer on. *)
Definition addAppearance_3 (retryResult : RecognizeResult) (s : State)
  : State :=
  let s := showLoading false s in
  match retryResult with
  | RecOk employee =>
      let c := JS.or_zero (confidence employee) in
      if JS.lt c MIN_CONFIDENCE then
        s |> set_confirmPhotoBtn btn_off
          |> set_recognitionResult (PanelStillLow c)
          |> updateStatus StStillLow Red
      else
        s |> set_recognitionResult
               (PanelRecognized (employee_name employee) c)
          |> set_confirmPhotoBtn btn_on
          |> updateStatus (StRecognized (employee_name employee)) Green
  | RecErr _ =>
      s |> set_recognitionResult PanelStillNot
        |> updateStatus StStillNot Red
  end.

(** ** Confirmation and submission *)

(** [confirmAndProcess()] up to
    [await recognizeFace(capturedData.descriptor, storeId)]. *)
Definition confirmAndProcess_1 (s : State) : State :=
  match capturedData s with
  | None => s |> showWarning MsgNoFaceCaptured
  | Some sample =>
      s |> showLoading true
        |> updateStatus StVerifying Blue
        |> emit (ApiRecognize (descriptor sample) (storeId s))
        |> suspend AwVerify
  end.

(** The title of the failure dialog. *)
Definition failureTitle (errorCode : string) : Title :=
  if ((errorCode =? "OUTSIDE_CLOCK_WINDOW")
      || (errorCode =? "STORE_CLOSED_LOGIN"))%string
  then TitleStoreHoursRestriction
  else TitleError.

(** [confirmAndProcess] from the answer of the clock call on; [result] is
    [None] when [currentAction] was neither ['clock-in'] nor ['clock-out']
    and no call was made ([result] stays [undefined]). *)
Definition confirmAndProcess_3 (result : option ClockResult) (s : State)
  : State :=
  let s := showLoading false s in
  match result with
  | Some (ClockOk data) =>
      let s :=
        if auto_clockout data
        then s |> showInfo
                    (MsgAutoClockout
                       (or_str (cd_message data)
                          "You were automatically clocked out at the store closing time."))
        else s in
      let actionText :=
        match currentAction s with
        | Some ClockIn => "Clocked In"
        | _ => "Clocked Out"
        end in
      let time :=
        match currentAction s with
        | Some ClockIn => clock_in_time data
        | _ => clock_out_time data
        end in
      let hours :=
        match currentAction s with
        | Some ClockOut => hours_worked data
        | _ => None
        end in
      s |> updateStatus (StSuccess actionText) Green
        |> showInfo (MsgClockSuccess actionText (cd_employee_name data)
                       time hours)
        |> hideCamera
        |> emit SetTimeoutClockStatus
  | Some (ClockErr _ _ _) | None =>
      let error :=
        match result with Some (ClockErr e _ _) => e | _ => None end in
      let error_code :=
        match result with Some (ClockErr _ c _) => c | _ => None end in
      let metadata :=
        match result with Some (ClockErr _ _ m) => m | _ => None end in
      let errorMsg := or_str error "Failed to process clock action" in
      let errorCode := or_str error_code "UNKNOWN_ERROR" in
      let what :=
        match currentAction s with
        | Some ClockIn => "clock in"
        | _ => "clock out"
        end in
      s |> updateStatus (StFailed errorMsg) Red
        |> showError (MsgClockFailed what errorMsg metadata)
             (failureTitle errorCode)
        |> fetchStoreHours_1
  end.

(** [confirmAndProcess] from the verification answer to the [await] of the
    clock call.  When [capturedData] has become [null] the argument
    [capturedData.descriptor] throws and the handler ends there. *)
Definition confirmAndProcess_2 (verifyResult : RecognizeResult) (s : State)
  : State :=
  match verifyResult with
  | RecErr _ =>
      s |> showLoading false |> showError MsgVerifyFailed TitleNone
  | RecOk _ =>
      let s := updateStatus StProcessing Blue s in
      match currentAction s, capturedData s with
      | Some ClockIn, Some sample =>
          s |> emit (ApiClockIn (descriptor sample) (imageDataUrl sample)
                       (storeId s))
            |> suspend AwClock
      | Some ClockOut, Some sample =>
          s |> emit (ApiClockOut (descriptor sample) (imageDataUrl sample)
                       (storeId s))
            |> suspend AwClock
      | Some _, None => s |> emit UnhandledRejection
      | None, _ => confirmAndProcess_3 None s
      end
  end.

(** ** The event loop *)

(** What a suspended call is resumed with.  [AnsStores] also carries the two
    clock readings the continuation makes. *)
Inductive Answer :=
| AnsCamera (r : CameraResult)
| AnsModels (loaded : bool)
| AnsCapture (r : CaptureResult)
| AnsRecognize (r : RecognizeResult)
| AnsAdd (r : AddResult)
| AnsClock (r : ClockResult)
| AnsStores (r : StoresResult) (now now' : Z).

Inductive Event :=
| ClickClockIn
| ClickClockOut
| ClickCapture
| ClickCancel
| ClickConfirm
| ClickRetake
| ClickAddAppearance (employeeName : option string)
| TickWindow (now : Z)       (* setInterval(updateClockButtonsState, 60000) *)
| Resume (i : nat) (a : Answer).

(** Removes the [i]-th element. *)
Fixpoint drop_nth {A} (i : nat) (l : list A) : list A :=
  match i, l with
  | _, [] => []
  | O, _ :: l' => l'
  | S i', x :: l' => x :: drop_nth i' l'
  end.

(** The continuation of a suspended call on its answer. *)
Definition resume (a : Await) (ans : Answer) : option (State -> State) :=
  match a, ans with
  | AwInitCamera, AnsCamera r => Some (showCamera_2 r)
  | AwLoadModels, AnsModels b => Some (showCamera_3 b)
  | AwCapture, AnsCapture r => Some (captureFace_2 r)
  | AwRecognize, AnsRecognize r => Some (captureFace_3 r)
  | AwAddAppearance, AnsAdd r => Some (addAppearance_2 r)
  | AwRetry, AnsRecognize r => Some (addAppearance_3 r)
  | AwVerify, AnsRecognize r => Some (confirmAndProcess_2 r)
  | AwClock, AnsClock r => Some (confirmAndProcess_3 (Some r))
  | AwStores, AnsStores r now now' => Some (fetchStoreHours_2 r now now')
  | _, _ => None
  end.

(** Runs [f] once per registered listener. *)
Fixpoint dispatch (n : nat) (f : State -> State) (s : State) : State :=
  match n with
  | O => s
  | S n' => dispatch n' f (f s)
  end.

(** One turn of the event loop.  A disabled button fires no click; a
    [Resume] that names no suspended call, or answers it with the wrong kind
    of value, is not a turn ([None]). *)
Definition step (e : Event) (s : State) : option State :=
  match e with
  | ClickClockIn =>
      Some (if disabled (clockInBtn s) then s
            else showCamera_1 (Some ClockIn) s)
  | ClickClockOut =>
      Some (if disabled (clockOutBtn s) then s
            else showCamera_1 (Some ClockOut) s)
  | ClickCapture => Some (captureFace_1 s)
  | ClickCancel => Some (hideCamera s)
  | ClickConfirm =>
      Some (if disabled (confirmPhotoBtn s) then s
            else confirmAndProcess_1 s)
  | ClickRetake =>
      Some (s |> set_photoPreview_display DNone
              |> showCamera_1 (currentAction s))
  | ClickAddAppearance employeeName =>
      match addAppearanceBtn s with
      | Some n => Some (dispatch n (addAppearance_1 employeeName) s)
      | None => None
      end
  | TickWindow now => Some (updateClockButtonsState now s)
  | Resume i ans =>
      match nth_error (tasks s) i with
      | Some a =>
          match resume a ans with
          | Some k => Some (k (set_tasks (drop_nth i (tasks s)) s))
          | None => None
          end
      | None => None
      end
  end.

(** A sequence of turns. *)
Fixpoint run (es : list Event) (s : State) : option State :=
  match es with
  | [] => Some s
  | e :: es' =>
      match step e s with
      | Some s' => run es' s'
      | None => None
      end
  end.

(** ** Observations and sample values *)

(** Whether the submit action (the confirm button) can be used. *)
Definition submitEnabled (s : State) : bool :=
  negb (disabled (confirmPhotoBtn s)).

(** Whether the clock-in and the clock-out button can both be used. *)
Definition clockPermitted (s : State) : bool :=
  negb (disabled (clockInBtn s)) && negb (disabled (clockOutBtn s)).


(** The binary64 values of the literals [0.1], [0.25], [0.55], [0.82]. *)
Definition c_0_10 : JS.number := S754_finite false 7205759403792794 (-56).
Definition c_0_25 : JS.number := S754_finite false 4503599627370496 (-54).
Definition c_0_55 : JS.number := S754_finite false 4953959590107546 (-53).
Definition c_0_82 : JS.number := S754_finite false 7385903388887613 (-53).

(** A time-clock page of store ["Main St"] at rest with nothing pending,
    used for the concrete runs below. *)
Definition kiosk : State :=
  {| storeId := "Main St"; currentAction := None; capturedData := None;
     storeHours := None; clockWindowStart := None; clockWindowEnd := None;
     video_srcObject := false; clockButtons_display := DFlex;
     cameraContainer_display := DNone; photoPreview_display := DNone;
     capturedPhoto_src := None; confirmPhotoBtn := btn_on;
     clockInBtn := btn_on; clockOutBtn := btn_on;
     recognitionResult := PanelStatic; statusText := (StReady, Grey);
     loadingIndicator_display := DNone; addAppearanceBtn := Some 0%nat;
     effects := []; tasks := [] |}.

(** A captured sample for the concrete runs. *)
Definition face : Descriptor := [c_0_10; c_0_25; c_0_55].
Definition jpeg : Image := "data:image/jpeg;base64,AAAA".

(** Minutes since midnight of a time of day, and what makes it one. *)
Definition minutesOf (t : HHMM) : Z := hh t * 60 + mm t.
Definition validHHMM (t : HHMM) : Prop :=
  0 <= hh t < 24 /\ 0 <= mm t < 60.

(** Sample times of day and a sample instant (2026-03-02, 10:15 local, in
    milliseconds of local time). *)
Definition t_09_00 : HHMM := {| hh := 9; mm := 0 |}.
Definition t_21_00 : HHMM := {| hh := 21; mm := 0 |}.
Definition t_22_00 : HHMM := {| hh := 22; mm := 0 |}.
Definition t_02_00 : HHMM := {| hh := 2; mm := 0 |}.
Definition monday_10_15 : Z := 20514 * Date.msPerDay + 36900000.

Definition store_of (open close : option HHMM) : Store :=
  {| name := "Main St"; opening_time := open; closing_time := close;
     timezone := Some "America/Chicago" |}.

(** The answer to the store-hours request gives no window: the request
    failed, the store is not in the list, or one of its two times is not
    set. *)
Definition hoursMissing (store : string) (r : StoresResult) : Prop :=
  match r with
  | StoresThrow => True
  | StoresOk stores =>
      match find (fun st => (name st =? store)%string) stores with
      | Some st => opening_time st = None \/ closing_time st = None
      | None => True
      end
  end.

(** A page that had the 09:00 / 21:00 window of an earlier day and is now
    outside it. *)
Definition kiosk_closed : State :=
  updateClockButtonsState (monday_10_15 + 2 * Date.msPerDay)
    (fetchStoreHours_2
       (StoresOk [store_of (Some t_09_00) (Some t_21_00)])
       monday_10_15 monday_10_15 kiosk).

(** A match on Jane Doe with confidence [c]. *)
Definition jane (c : JS.number) : RecognizeResult :=
  RecOk {| employee_name := "Jane Doe"; confidence := Some c |}.

(** From the clock-in click to a captured sample whose recognition is in
    flight. *)
Definition until_recognizing : list Event :=
  [ ClickClockIn;
    Resume 0 (AnsCamera CameraOk);
    Resume 0 (AnsModels true);
    ClickCapture;
    Resume 0 (AnsCapture (CaptureOk face jpeg)) ].


(** From the clock-in click to a confirmed match (confidence 0.82) and the
    click on the confirm button, which starts the re-verification. *)
Definition until_verifying : list Event :=
  until_recognizing
  ++ [ Resume 0 (AnsRecognize (jane c_0_82)); ClickConfirm ].

(** What the page has done once a rejection is handled, [s] being the state
    before: sample and pending action kept, one dialog shown, the store
    hours requested, and that request the only call now in flight that was
    not before. *)
Definition rejection_handled (s s' : State) : Prop :=
  capturedData s' = capturedData s
  /\ currentAction s' = currentAction s
  /\ tasks s' = tasks s ++ [AwStores]
  /\ exists m title,
       effects s' = effects s ++ [ShowError m title; ApiGetStores].

(** The number of listeners on the add-appearance button after the answer
    [first] to a capture, [n] being their number before: [captureFace] adds
    one when the answer is a failure and none when it is a match, also a
    match of low confidence. *)
Definition listenersAfter (first : RecognizeResult) (n : nat) : nat :=
  match first with
  | RecErr _ => S n
  | RecOk _ => n
  end.

(** A match that passes the threshold: it carries a confidence [c] with
    [c >= 0.3]. *)
Definition confirmed (e : Employee) : bool :=
  match confidence e with
  | Some c => JS.ge c MIN_CONFIDENCE
  | None => false
  end.

(** The submit action after a recognition answer, [before] being what it
    was: a match sets it by the threshold, a failure leaves it. *)
Definition retryGate (before : bool) (r : RecognizeResult) : bool :=
  match r with
  | RecOk e => confirmed e
  | RecErr _ => before
  end.

(** The panel shown for the answer to a retry. *)
Definition retryPanel (r : RecognizeResult) : Panel :=
  match r with
  | RecOk e =>
      if confirmed e
      then PanelRecognized (employee_name e) (JS.or_zero (confidence e))
      else PanelStillLow (JS.or_zero (confidence e))
  | RecErr _ => PanelStillNot
  end.

(** The turns of an enrollment with its retries: a capture and the answer
    [first] of its recognition, the operator's name and one click on the
    add-appearance button, then the answers to the enrollment requests and
    the answers to the recognitions that follow them, each list in the
    order the requests were sent. *)
Definition enrollment_retry (d : Descriptor) (img : Image)
    (first : RecognizeResult) (who : string) (totals : list Z)
    (retries : list RecognizeResult) : list Event :=
  [ ClickCapture;
    Resume 0 (AnsCapture (CaptureOk d img));
    Resume 0 (AnsRecognize first);
    ClickAddAppearance (Some who) ]
  ++ map (fun total => Resume 0 (AnsAdd (AddOk total))) totals
  ++ map (fun r => Resume 0 (AnsRecognize r)) retries.

(** Two captures in a row that are not recognised, the second after a
    retake, then one click on the add-appearance button under the name
    ["Jane Doe"] and the answers to everything that click started. *)
Definition two_captures_one_click : list Event :=
  until_recognizing
  ++ [ Resume 0 (AnsRecognize (RecErr None));
       ClickRetake;
       Resume 0 (AnsCamera CameraOk);
       Resume 0 (AnsModels true);
       ClickCapture;
       Resume 0 (AnsCapture (CaptureOk face jpeg));
       Resume 0 (AnsRecognize (RecErr None));
       ClickAddAppearance (Some "Jane Doe");
       Resume 0 (AnsAdd (AddOk 2));
       Resume 0 (AnsAdd (AddOk 3));
       Resume 0 (AnsRecognize (jane c_0_55));
       Resume 0 (AnsRecognize (jane c_0_55)) ].

(** Whether an outbound call is an enrollment, and whether it is a
    recognition request. *)
Definition isEnrollment (e : Effect) : bool :=
  match e with ApiAddAppearance _ _ _ => true | _ => false end.
Definition isRecognition (e : Effect) : bool :=
  match e with ApiRecognize _ _ => true | _ => false end.

(** ** Further observations *)

(** Whether an outbound call is a clock-in or clock-out submission. *)
Definition isClockRequest (e : Effect) : bool :=
  match e with
  | ApiClockIn _ _ _ | ApiClockOut _ _ _ => true
  | _ => false
  end.

(** The submissions sent so far, oldest first. *)
Definition clockRequests (s : State) : list Effect :=
  filter isClockRequest (effects s).

(** The submission [confirmAndProcess] sends for action [a] and a sample. *)
Definition clockRequestFor (a : Action) (sample : Sample) (store : string)
  : Effect :=
  match a with
  | ClockIn => ApiClockIn (descriptor sample) (imageDataUrl sample) store
  | ClockOut => ApiClockOut (descriptor sample) (imageDataUrl sample) store
  end.

(** Whether a turn hands a successful recognition answer to a suspended
    call. *)
Definition isMatchAnswer (e : Event) : bool :=
  match e with
  | Resume _ (AnsRecognize (RecOk _)) => true
  | _ => false
  end.



(** The three variables of the clock window. *)
Definition windowVars (s : State) : option StoreHours * option Z * option Z :=
  (storeHours s, clockWindowStart s, clockWindowEnd s).

(** Store hours never stand without a window. *)
Definition windowSet (s : State) : Prop :=
  storeHours s <> None ->
  clockWindowStart s <> None /\ clockWindowEnd s <> None.

(** ** The status card and the clocked-in check

    [fetchCurrentClockStatus] of timeclock-handler.js writes the card that
    shows who is clocked in; [hasClockedInEmployee] of script.js reads the
    same answer of [/timeclock/today]. *)

(** Whether an absent-or-string value is truthy. *)
Definition truthy_str (v : option string) : bool :=
  match v with
  | Some x => negb (x =? "")%string
  | None => false
  end.

(** [a || b] on absent-or-string values. *)
Definition or_opt (a b : option string) : option string :=
  if truthy_str a then a else b.

(** An element of [data.employees]. *)
Record Entry := {
  en_employee_name : option string;
  en_clock_in : option string;
  en_clock_out : option string;
  en_status : option string
}.

(** What [apiGet('/timeclock/today', ...)] does: resolve with a body whose
    [employees] is an array ([Some]) or not, or throw. *)
Inductive TodayResult :=
| TodayOk (employees : option (list Entry))
| TodayThrow.

(** A text of the card: a literal, or the time of day printed from a
    timestamp by [toLocaleTimeString]. *)
Inductive CardText :=
| CardLiteral (text : string)
| CardTime (timestamp : string).

(** The card: the [hidden] class of [currentClockStatus] and the texts of
    [clockedInEmployeeName], [clockInTime] and [clockOutTime]. *)
Record StatusCard := {
  card_hidden : bool;
  card_name : string;
  card_clock_in : CardText;
  card_clock_out : CardText
}.

(** [emp => !emp.clock_out]. *)
Definition notClockedOut (emp : Entry) : bool :=
  negb (truthy_str (en_clock_out emp)).

(** [fetchCurrentClockStatus()] from the answer on. *)
Definition fetchCurrentClockStatus_2 (data : TodayResult) (c : StatusCard)
  : StatusCard :=
  let hide :=
    {| card_hidden := true; card_name := card_name c;
       card_clock_in := card_clock_in c;
       card_clock_out := card_clock_out c |} in
  match data with
  | TodayOk employees =>
      let activeEntry :=
        match employees with
        | Some l => find notClockedOut l
        | None => None
        end in
      match activeEntry with
      | Some entry =>
          {| card_hidden := false;
             card_name :=
               or_str (en_employee_name entry) "Unknown Employee";
             card_clock_in :=
               match en_clock_in entry with
               | Some t =>
                   if (t =? "")%string then card_clock_in c else CardTime t
               | None => card_clock_in c
               end;
             card_clock_out :=
               match en_clock_out entry with
               | Some t =>
                   if (t =? "")%string then CardLiteral "Not clocked out"
                   else CardTime t
               | None => CardLiteral "Not clocked out"
               end |}
      | None => hide
      end
  | TodayThrow => hide
  end.

(** [hasClockedInEmployee(storeId)] of script.js from the answer on. *)
Definition hasClockedInEmployee_2 (data : TodayResult) : bool :=
  match data with
  | TodayOk (Some l) =>
      existsb
        (fun emp =>
           match en_status emp with
           | Some st => (st =? "clocked_in")%string
           | None => false
           end
           || negb (truthy_str (en_clock_out emp)))
        l
  | TodayOk None => false
  | TodayThrow => true
  end.

(** ** Errors of the clock calls

    The [catch] blocks of [clockInWithFace] and [clockOutWithFace] are the
    same text; [normalizeError] is the error normaliser of the API client. *)

(** The body of an error answer, as far as the code reads it; [eb_metadata]
    holds the bounds [window_start] and [window_end] when the metadata has
    both. *)
Record ErrorBody := {
  eb_error : option string;
  eb_message : option string;
  eb_error_code : option string;
  eb_metadata : option (Z * Z)
}.

(** A caught error: its [message] when that is a string, and
    [response.data] when both are there. *)
Record Thrown := {
  th_message : option string;
  th_response_data : option ErrorBody
}.

Section ClockErrors.

(** [JSON.parse] on the message of the error: [Some] when it yields an
    object, [None] when it throws or yields anything else. *)
Variable JSONparse : string -> option ErrorBody.

(** The [catch] block of [clockInWithFace] and [clockOutWithFace]. *)
Definition clockWithFace_catch (error : Thrown) : ClockResult :=
  let unparsed :=
    {| eb_error := th_message error; eb_message := None;
       eb_error_code := None; eb_metadata := None |} in
  let errorData :=
    match th_response_data error with
    | Some data => data
    | None =>
        match th_message error with
        | Some m =>
            match JSONparse m with
            | Some parsed =>
                if truthy_str (eb_error parsed) then parsed else unparsed
            | None => unparsed
            end
        | None => unparsed
        end
    end in
  ClockErr (or_opt (eb_error errorData) (th_message error))
    (eb_error_code errorData) (eb_metadata errorData).

End ClockErrors.

(** The first argument of [normalizeError]: [null], a string, or an
    object. *)
Inductive ErrValue :=
| EvNull
| EvText (s : string)
| EvObject (b : ErrorBody).

(** The [error] of a normalised error: [null], a string, or the text
    [JSON.stringify] makes of an object. *)
Inductive ErrMessage :=
| EmNull
| EmText (s : string)
| EmJson (b : ErrorBody).

Record Normalized := {
  n_error : ErrMessage;
  n_error_code : string;
  n_status_code : Z;
  n_request_id : string;
  n_metadata : option (Z * Z)
}.

(** [!normalized.error || normalized.error === 'An error occurred']. *)
Definition genericMessage (m : ErrMessage) : bool :=
  match m with
  | EmNull => true
  | EmText s => (s =? "")%string || (s =? "An error occurred")%string
  | EmJson _ => false
  end.

(** The message [normalizeError] starts from. *)
Definition errorMessageOf (error : ErrValue) : ErrMessage :=
  match error with
  | EvObject b =>
      let fromMessage :=
        match eb_message b with
        | Some m => if (m =? "")%string then EmJson b else EmText m
        | None => EmJson b
        end in
      match eb_error b with
      | Some e => if (e =? "")%string then fromMessage else EmText e
      | None => fromMessage
      end
  | EvText s => EmText s
  | EvNull => EmNull
  end.

(** [normalizeError(error, statusCode, requestId)]; [statusCode] is [None]
    when the argument is [undefined]. *)
Definition normalizeError (error : ErrValue) (statusCode : option Z)
    (requestId : string) : Normalized :=
  let errorMessage := errorMessageOf error in
  let orDefault (d : string) :=
    if genericMessage errorMessage then EmText d else errorMessage in
  let mapped : string * ErrMessage :=
    match statusCode with
    | Some code =>
        if code =? 401 then
          ("UNAUTHORIZED", orDefault "Authentication required. Please login.")
        else if code =? 403 then
          ("FORBIDDEN", orDefault "Insufficient permissions")
        else if code =? 404 then
          ("NOT_FOUND", orDefault "Resource not found")
        else if code =? 400 then ("BAD_REQUEST", errorMessage)
        else if code =? 422 then ("VALIDATION_ERROR", errorMessage)
        else if 500 <=? code then
          ("SERVER_ERROR", orDefault "Server error. Please try again later.")
        else ("UNKNOWN_ERROR", errorMessage)
    | None => ("UNKNOWN_ERROR", errorMessage)
    end in
  {| n_error := snd mapped;
     n_error_code :=
       match error with
       | EvObject b =>
           match eb_error_code b with
           | Some c => if (c =? "")%string then fst mapped else c
           | None => fst mapped
           end
       | _ => fst mapped
       end;
     n_status_code :=
       match statusCode with
       | Some code => if code =? 0 then 500 else code
       | None => 500
       end;
     n_request_id := requestId;
     n_metadata :=
       match error with
       | EvObject b => eb_metadata b
       | _ => None
       end |}.

(** The statuses for which [normalizeError] puts a default text in place of
    a message that says nothing: 401, 403, 404 and 500 on. *)
Definition hasDefaultText (statusCode : option Z) : bool :=
  match statusCode with
  | Some code =>
      (code =? 401) || (code =? 403) || (code =? 404) || (500 <=? code)
  | None => false
  end.

(** ** Times of day as text

    [utils/timeUtils.js], which the store-hours forms use to read and print
    the [HH:MM] values that [fetchStoreHours] later splits, and
    [stripInvalidChars] of the time input that sits on top of it.

    A JS string is the list of its UTF-16 code units.  [parseInt] is used
    by this code on runs of decimal digits only and gives their value; the
    source rounds a value of [2^53] or more to a double, which changes
    nothing but the text printed for such an hour or minute, and such a
    time is never valid. *)

Module TimeUtils.

Definition jsstring := list N.

(** The code units of an ASCII literal. *)
Definition js (s : string) : jsstring :=
  map Ascii.N_of_ascii (list_ascii_of_string s).

(** [/\d/]: the digits [0] to [9]. *)
Definition isDigit (c : N) : bool := ((48 <=? c) && (c <=? 57))%N.

Definition colon : N := 58.

(** What [String.prototype.trim] removes: white space and line
    terminators. *)
Definition isWhite (c : N) : bool :=
  (existsb (N.eqb c)
     [9; 10; 11; 12; 13; 32; 160; 5760; 8232; 8233; 8239; 8287; 12288;
      65279]
   || ((8192 <=? c) && (c <=? 8202)))%N.

Fixpoint trimStart (s : jsstring) : jsstring :=
  match s with
  | c :: rest => if isWhite c then trimStart rest else s
  | [] => []
  end.

(** [s.trim()]. *)
Definition trim (s : jsstring) : jsstring :=
  rev (trimStart (rev (trimStart s))).

(** The leading run of digits of [s]. *)
Fixpoint leadingDigits (s : jsstring) : jsstring :=
  match s with
  | c :: rest => if isDigit c then c :: leadingDigits rest else []
  | [] => []
  end.

(** [parseInt(s, 10)] on a string that starts with a digit or is empty:
    the value of the leading digits, [None] for [NaN]. *)
Definition parseInt (s : jsstring) : option N :=
  match leadingDigits s with
  | [] => None
  | ds => Some (fold_left (fun acc c => acc * 10 + (c - 48)) ds 0)%N
  end.

Fixpoint uintCodes (d : Decimal.uint) : jsstring :=
  match d with
  | Decimal.Nil => []
  | Decimal.D0 r => 48%N :: uintCodes r
  | Decimal.D1 r => 49%N :: uintCodes r
  | Decimal.D2 r => 50%N :: uintCodes r
  | Decimal.D3 r => 51%N :: uintCodes r
  | Decimal.D4 r => 52%N :: uintCodes r
  | Decimal.D5 r => 53%N :: uintCodes r
  | Decimal.D6 r => 54%N :: uintCodes r
  | Decimal.D7 r => 55%N :: uintCodes r
  | Decimal.D8 r => 56%N :: uintCodes r
  | Decimal.D9 r => 57%N :: uintCodes r
  end.

(** [String(n)] for a natural number. *)
Definition toString (n : N) : jsstring := uintCodes (N.to_uint n).

(** [String(n).padStart(2, '0')]. *)
Definition pad2 (n : N) : jsstring :=
  let t := toString n in
  match t with
  | [_] => 48%N :: t
  | _ => t
  end.

(** [String(hh).padStart(2, '0') + ':' + String(mm).padStart(2, '0')]. *)
Definition hhmm (hh mm : N) : jsstring := pad2 hh ++ colon :: pad2 mm.

(** [{ normalized, valid }]; [normalized] is [None] for [null]. *)
Definition Parsed : Type := option jsstring * bool.

Definition invalid : Parsed := (None, false).

(** [parseDigitsOnly(digits)]. *)
Definition parseDigitsOnly (digits : jsstring) : Parsed :=
  let n := List.length digits in
  if (n =? 0)%nat then invalid
  else if (4 <? n)%nat then invalid
  else
    let fields : option (option N * option N) :=
      if (n =? 1)%nat then Some (parseInt digits, Some 0%N)
      else if (n =? 2)%nat then
        match parseInt digits with
        | Some v =>
            if (v <=? 23)%N then Some (Some v, Some 0%N)
            else if (24 <=? v)%N && (v <=? 59)%N
                 then Some (Some 0%N, Some v)
                 else None
        | None => None
        end
      else if (n =? 3)%nat then
        Some (parseInt (firstn 1 digits), parseInt (firstn 2 (skipn 1 digits)))
      else
        Some (parseInt (firstn 2 digits), parseInt (firstn 2 (skipn 2 digits)))
    in
    match fields with
    | None => invalid
    | Some (Some hh, Some mm) =>
        if (23 <? hh)%N || (59 <? mm)%N then (Some (hhmm hh mm), false)
        else (Some (hhmm hh mm), true)
    | Some _ => invalid
    end.

(** [/:\d|\d:/.test(s)]: a colon next to a digit. *)
Fixpoint colonByDigit (s : jsstring) : bool :=
  match s with
  | a :: (b :: _) as rest =>
      ((a =? colon)%N && isDigit b) || (isDigit a && (b =? colon)%N)
      || colonByDigit rest
  | _ => false
  end.

(** [s.split(':')]. *)
Fixpoint split (s : jsstring) : list jsstring :=
  match s with
  | [] => [[]]
  | c :: rest =>
      if (c =? colon)%N then [] :: split rest
      else match split rest with
           | part :: parts => (c :: part) :: parts
           | [] => [[c]]
           end
  end.

(** [normalizeTime(raw)]; [raw] is [None] when it is not a string. *)
Definition normalizeTime (raw : option jsstring) : Parsed :=
  match raw with
  | None => invalid
  | Some raw =>
      let s := trim raw in
      match s with
      | [] => (Some [], true)
      | _ =>
          if colonByDigit s then
            match split s with
            | [a; b] =>
                let ad := filter isDigit a in
                let bd := filter isDigit b in
                match ad, bd with
                | [], [] => invalid
                | _, _ =>
                    let hh := match ad with [] => Some 0%N | _ => parseInt ad end in
                    let mm := match bd with [] => Some 0%N | _ => parseInt bd end in
                    match hh, mm with
                    | Some hh, Some mm =>
                        (Some (hhmm hh mm), (hh <=? 23)%N && (mm <=? 59)%N)
                    | _, _ => invalid
                    end
                end
            | _ => invalid
            end
          else parseDigitsOnly (filter isDigit s)
      end
  end.

(** [{ valid, error }] of [validateTime]. *)
Inductive Validation :=
| Valid
| Invalid (error : string).

(** [value == null || String(value).trim() === ''] for a value that is
    [null] ([None]) or a string. *)
Definition blank (value : option jsstring) : bool :=
  match value with
  | None => true
  | Some v => match trim v with [] => true | _ => false end
  end.

(** [validateTime(value, required)]. *)
Definition validateTime (value : option jsstring) (required : bool)
  : Validation :=
  if required && blank value then Invalid "Time is required."
  else if negb required && blank value then Valid
  else
    match normalizeTime value with
    | (Some _, true) => Valid
    | _ => Invalid "Enter a valid time in 24-hour format (HH:MM)."
    end.

(** [formatTime(h)] for a string [h] and no second argument:
    [normalized || '']. *)
Definition formatTime (h : jsstring) : jsstring :=
  match fst (normalizeTime (Some h)) with
  | Some t => t
  | None => []
  end.

(** [stripInvalidChars(v)] of the time input: the digits and the first
    colon. *)
Fixpoint stripFrom (hasColon : bool) (v : jsstring) : jsstring :=
  match v with
  | [] => []
  | c :: rest =>
      if isDigit c then c :: stripFrom hasColon rest
      else if (c =? colon)%N && negb hasColon then c :: stripFrom true rest
      else stripFrom hasColon rest
  end.

Definition stripInvalidChars (v : jsstring) : jsstring := stripFrom false v.

End TimeUtils.

(** The digits [0] to [9] as numbers, and the code unit of one. *)
Definition digitValues : list N := map N.of_nat (seq 0 10).
Definition digitChar (x : N) : N := (48 + x)%N.

(** Equality test on the results of [parseDigitsOnly] and [normalizeTime]. *)
Definition parsed_eqb (p q : TimeUtils.Parsed) : bool :=
  match p, q with
  | (Some s, v), (Some t, w) =>
      (if list_eq_dec N.eq_dec s t then true else false) && Bool.eqb v w
  | (None, v), (None, w) => Bool.eqb v w
  | _, _ => false
  end.

(** What the header of [parseDigitsOnly] says about one to four digits. *)
Definition digitsRule (a b c d : N) : bool :=
  let v2 := (10 * a + b)%N in
  parsed_eqb (TimeUtils.parseDigitsOnly [digitChar a])
    (Some (TimeUtils.hhmm a 0), true)
  && parsed_eqb (TimeUtils.parseDigitsOnly [digitChar a; digitChar b])
       (if (v2 <=? 23)%N then (Some (TimeUtils.hhmm v2 0), true)
        else if (v2 <=? 59)%N then (Some (TimeUtils.hhmm 0 v2), true)
        else TimeUtils.invalid)
  && parsed_eqb
       (TimeUtils.parseDigitsOnly [digitChar a; digitChar b; digitChar c])
       (Some (TimeUtils.hhmm a (10 * b + c)), (10 * b + c <=? 59)%N)
  && parsed_eqb
       (TimeUtils.parseDigitsOnly
          [digitChar a; digitChar b; digitChar c; digitChar d])
       (Some (TimeUtils.hhmm (10 * a + b) (10 * c + d)),
        (10 * a + b <=? 23)%N && (10 * c + d <=? 59)%N).

(** A canonical time: [HH:MM] with [HH] up to 23 and [MM] up to 59. *)
Definition canonical (t : TimeUtils.jsstring) : Prop :=
  exists hh mm, (hh <= 23)%N /\ (mm <= 59)%N /\ t = TimeUtils.hhmm hh mm.

(** Whether [normalizeTime] turns a canonical time back into itself. *)
Definition canonicalFixed (hh mm : N) : bool :=
  parsed_eqb (TimeUtils.normalizeTime (Some (TimeUtils.hhmm hh mm)))
    (Some (TimeUtils.hhmm hh mm), true)
  && (List.length (TimeUtils.hhmm hh mm) =? 5)%nat.

(** The number of colons in a string. *)
Definition colons (s : TimeUtils.jsstring) : nat :=
  List.length (filter (N.eqb TimeUtils.colon) s).

(** * Properties *)

(** ** Numbers *)

Lemma SFltb_MIN_CONFIDENCE (c : JS.number) :
  c <> S754_nan ->
  SFltb c MIN_CONFIDENCE = negb (SFleb MIN_CONFIDENCE c).
Proof.
  intros Hnan. unfold SFltb, SFleb, MIN_CONFIDENCE.
  destruct c as [sg | sg | | sg m e]; try congruence;
    try (destruct sg; reflexivity).
  destruct sg; cbn [SFcompare]; [reflexivity|].
  rewrite (Z.compare_antisym e (-54)).
  destruct (e ?= -54) eqn:He; cbn [CompOpp]; try reflexivity.
  pose proof (Pos.compare_cont_antisym m 5404319552844595 Eq) as Hm.
  cbn [CompOpp] in Hm. rewrite <- Hm.
  destruct (Pos.compare_cont Eq m 5404319552844595); reflexivity.
Qed.

(** [MIN_CONFIDENCE] is the binary64 value of the decimal [0.3]: a 53-bit
    mantissa at exponent -54, less than half a unit in the last place away
    from 3/10. *)
Lemma MIN_CONFIDENCE_literal :
  exists m, MIN_CONFIDENCE = S754_finite false m (-54)
            /\ 2 ^ 52 <= Zpos m < 2 ^ 53
            /\ 2 * Z.abs (10 * Zpos m - 3 * 2 ^ 54) < 10.
Proof.
  eexists. split; [reflexivity|].
  split; [split|]; try reflexivity.
  vm_compute. discriminate.
Qed.

(** The threshold test of the two recognition paths, [(c || 0) < 0.3], is
    the negation of [c >= 0.3] for every Number [c], NaN included. *)
Lemma below_threshold (c : JS.number) :
  JS.lt (JS.or_zero (Some c)) MIN_CONFIDENCE = negb (JS.ge c MIN_CONFIDENCE).
Proof.
  unfold JS.lt, JS.ge, JS.or_zero.
  destruct (JS.truthy c) eqn:Ht.
  - apply SFltb_MIN_CONFIDENCE. intros ->. discriminate.
  - destruct c as [sg | sg | | sg m e]; try discriminate;
      try destruct sg; reflexivity.
Qed.

(** An absent confidence counts as [0], which is below the threshold. *)
Lemma absent_below_threshold :
  JS.or_zero None = JS.zero /\ JS.lt (JS.or_zero None) MIN_CONFIDENCE = true.
Proof. split; reflexivity. Qed.

(** ** The confidence threshold *)


Lemma addAppearance_3_submit (e : Employee) (s : State) :
  submitEnabled (addAppearance_3 (RecOk e) s)
  = negb (JS.lt (JS.or_zero (confidence e)) MIN_CONFIDENCE).
Proof.
  unfold addAppearance_3.
  destruct (JS.lt (JS.or_zero (confidence e)) MIN_CONFIDENCE); reflexivity.
Qed.



(** C9.  A match whose answer has no [confidence] field is given confidence
    [0] and leaves the submit action disabled, after the first recognition
    and after the recognition that follows an enrollment alike; the panel
    shown is the low-confidence one, never the recognised one. *)
Theorem C9_absent_confidence (s : State) (who : string) :
  let matched := RecOk {| employee_name := who; confidence := None |} in
  submitEnabled (captureFace_3 matched s) = false
  /\ recognitionResult (captureFace_3 matched s)
     = PanelLowConfidence who JS.zero
  /\ submitEnabled (addAppearance_3 matched s) = false
  /\ recognitionResult (addAppearance_3 matched s) = PanelStillLow JS.zero.
Proof. cbv zeta. repeat split. Qed.

(** ** Dates *)

Section DateFacts.

Variable now : Z.

Lemma Day_startOfDay : Date.Day (Date.startOfDay now) = Date.Day now.
Proof.
  unfold Date.startOfDay, Date.MakeDate, Date.Day.
  rewrite Z.add_0_r. apply Z.div_mul. discriminate.
Qed.

Lemma setHours_startOfDay (hour min : Z) :
  Date.setHours (Date.startOfDay now) hour min 0 0
  = Date.startOfDay now + (hour * 60 + min) * Date.msPerMinute.
Proof.
  unfold Date.setHours. rewrite Day_startOfDay.
  unfold Date.startOfDay, Date.MakeDate, Date.MakeTime,
    Date.msPerHour, Date.msPerMinute.
  lia.
Qed.

Lemma addDate_1 (d : Z) : Date.addDate d 1 = d + Date.msPerDay.
Proof.
  unfold Date.addDate, Date.MakeDate, Date.Day, Date.TimeWithinDay.
  pose proof (Z.div_mod d Date.msPerDay) as H.
  assert (Date.msPerDay <> 0) as Hnz by discriminate.
  specialize (H Hnz). lia.
Qed.

(** An instant less than a day after today's midnight is on today's date. *)
Lemma Day_within (k : Z) :
  0 <= k < Date.msPerDay -> Date.Day (Date.startOfDay now + k) = Date.Day now.
Proof.
  intros Hk. unfold Date.startOfDay, Date.MakeDate, Date.Day.
  rewrite Z.add_0_r, Z.add_comm, Z.div_add by discriminate.
  rewrite (Z.div_small k) by exact Hk. reflexivity.
Qed.

(** The start of the window is 30 minutes before opening, counted from
    today's midnight. *)
Lemma windowStart_minutes (open : HHMM) :
  windowStart open now
  = Date.startOfDay now + (minutesOf open - 30) * Date.msPerMinute.
Proof.
  unfold windowStart, minutesOf. cbv zeta.
  rewrite setHours_startOfDay. f_equal. unfold Date.msPerMinute. lia.
Qed.

(** The end of the window is 30 minutes after closing, counted from
    today's midnight, one day later when the overnight test holds. *)
Lemma windowEnd_minutes (open close : HHMM) :
  windowEnd open close now
  = Date.startOfDay now
    + (if overnight open close then Date.msPerDay else 0)
    + (minutesOf close + 30) * Date.msPerMinute.
Proof.
  unfold windowEnd, minutesOf. cbv zeta.
  destruct (overnight open close).
  - rewrite addDate_1, setHours_startOfDay. unfold Date.msPerMinute. lia.
  - rewrite setHours_startOfDay. unfold Date.msPerMinute. lia.
Qed.

End DateFacts.

(** On times of day the overnight test compares the two times. *)
Lemma overnight_spec (open close : HHMM) :
  validHHMM open -> validHHMM close ->
  overnight open close = (minutesOf close <? minutesOf open).
Proof.
  unfold validHHMM, overnight, minutesOf. intros Ho Hc.
  destruct (Z.ltb_spec (hh close) (hh open)),
    (Z.eqb_spec (hh close) (hh open)),
    (Z.ltb_spec (mm close) (mm open)),
    (Z.ltb_spec (hh close * 60 + mm close) (hh open * 60 + mm open));
    cbn; try reflexivity; lia.
Qed.

Lemma overnight_same (t : HHMM) : overnight t t = false.
Proof.
  unfold overnight. rewrite !Z.ltb_irrefl, andb_false_r. reflexivity.
Qed.

(** ** Store hours *)

Section StoreHoursFacts.

Variables (s : State) (now now' : Z).

(** What [fetchStoreHours] leaves in the three variables when the store is
    found with both times set. *)
Lemma fetchStoreHours_2_configured stores st open close :
  find (fun st => (name st =? storeId s)%string) stores = Some st ->
  opening_time st = Some open ->
  closing_time st = Some close ->
  let s' := fetchStoreHours_2 (StoresOk stores) now now' s in
  storeHours s'
  = Some {| sh_opening_time := open; sh_closing_time := close;
            sh_timezone := or_str (timezone st) "UTC" |}
  /\ clockWindowStart s' = Some (windowStart open now)
  /\ clockWindowEnd s' = Some (windowEnd open close now).
Proof.
  intros Hfind Ho Hc. cbv zeta. unfold fetchStoreHours_2.
  rewrite Hfind. destruct st as [n o c tz]. cbn in Ho, Hc. subst o c.
  unfold updateClockButtonsState. cbn.
  destruct (_ && _); cbn; repeat split.
Qed.

(** [updateClockButtonsState] only writes the two buttons and the status
    line. *)
Lemma updateClockButtonsState_vars t (u : State) :
  let u' := updateClockButtonsState t u in
  storeHours u' = storeHours u
  /\ clockWindowStart u' = clockWindowStart u
  /\ clockWindowEnd u' = clockWindowEnd u
  /\ tasks u' = tasks u /\ effects u' = effects u.
Proof.
  cbv zeta. unfold updateClockButtonsState.
  destruct (storeHours u) eqn:Hh, (clockWindowStart u) eqn:Hs,
    (clockWindowEnd u) eqn:He;
    try destruct (_ && _); cbn; rewrite ?Hh, ?Hs, ?He; repeat split.
Qed.

(** With a window in place the buttons are usable exactly inside it, both
    ends included. *)
Lemma updateClockButtonsState_window t (u : State) h wstart wend :
  storeHours u = Some h ->
  clockWindowStart u = Some wstart ->
  clockWindowEnd u = Some wend ->
  clockPermitted (updateClockButtonsState t u)
  = (wstart <=? t) && (t <=? wend).
Proof.
  intros Hh Hs He. unfold updateClockButtonsState.
  rewrite Hh, Hs, He. destruct (_ && _); reflexivity.
Qed.

(** Without store hours the buttons are usable whatever the time. *)
Lemma updateClockButtonsState_open t (u : State) :
  storeHours u = None ->
  clockPermitted (updateClockButtonsState t u) = true.
Proof.
  intros Hh. unfold updateClockButtonsState. rewrite Hh. reflexivity.
Qed.

End StoreHoursFacts.

(** ** The clock window *)

(** C4.  When closing is strictly earlier than opening, the end of the
    window is one day later than closing plus 30 minutes taken on today's
    date, and the window is not empty: start <= end.  For 22:00 / 02:00 the
    window runs from 21:30 today to 02:30 tomorrow. *)
Theorem C4_overnight_window (s : State) (stores : list Store) (st : Store)
    (open close : HHMM) (now now' : Z) :
  find (fun st => (name st =? storeId s)%string) stores = Some st ->
  opening_time st = Some open ->
  closing_time st = Some close ->
  validHHMM open -> validHHMM close ->
  minutesOf close < minutesOf open ->
  let s' := fetchStoreHours_2 (StoresOk stores) now now' s in
  let today := Date.startOfDay now in
  exists wstart wend,
    clockWindowStart s' = Some wstart /\ clockWindowEnd s' = Some wend
    /\ wstart = today + (minutesOf open - 30) * Date.msPerMinute
    /\ wend = today + Date.msPerDay
              + (minutesOf close + 30) * Date.msPerMinute
    /\ wstart <= wend
    /\ windowStart t_22_00 now
       = Date.MakeDate (Date.Day now) (Date.MakeTime 21 30 0 0)
    /\ windowEnd t_22_00 t_02_00 now
       = Date.MakeDate (Date.Day now + 1) (Date.MakeTime 2 30 0 0).
Proof.
  intros Hfind Ho Hc Hvo Hvc Hlt. cbv zeta.
  destruct (fetchStoreHours_2_configured s now now' stores st open close
              Hfind Ho Hc) as (_ & Hs & He).
  exists (windowStart open now), (windowEnd open close now).
  split; [exact Hs|]. split; [exact He|].
  rewrite windowStart_minutes, windowEnd_minutes.
  rewrite (overnight_spec open close Hvo Hvc).
  apply Z.ltb_lt in Hlt. rewrite Hlt.
  apply Z.ltb_lt in Hlt.
  split; [reflexivity|]. split; [reflexivity|].
  split.
  - destruct Hvo as [[? ?] [? ?]], Hvc as [[? ?] [? ?]].
    unfold minutesOf, Date.msPerDay, Date.msPerMinute in *. lia.
  - rewrite windowStart_minutes, windowEnd_minutes.
    unfold Date.startOfDay, Date.MakeDate, Date.MakeTime, minutesOf,
      Date.msPerDay, Date.msPerHour, Date.msPerMinute.
    cbn. split; lia.
Qed.

Lemma C4_overnight_window_witness :
  let s' :=
    fetchStoreHours_2
      (StoresOk [store_of (Some t_22_00) (Some t_02_00)])
      monday_10_15 monday_10_15 kiosk in
  exists wstart wend,
    clockWindowStart s' = Some wstart /\ clockWindowEnd s' = Some wend
    /\ wstart = Date.startOfDay monday_10_15 + 1290 * Date.msPerMinute
    /\ wend = Date.startOfDay monday_10_15 + Date.msPerDay
              + 150 * Date.msPerMinute
    /\ wstart <= wend.
Proof.
  destruct (C4_overnight_window kiosk
              [store_of (Some t_22_00) (Some t_02_00)]
              (store_of (Some t_22_00) (Some t_02_00))
              t_22_00 t_02_00 monday_10_15 monday_10_15)
    as (wstart & wend & Hs & He & Hws & Hwe & Hle & _).
  - reflexivity.
  - reflexivity.
  - reflexivity.
  - unfold validHHMM; simpl; lia.
  - unfold validHHMM; simpl; lia.
  - unfold minutesOf; simpl; lia.
  - exists wstart, wend. repeat split; assumption.
Defined.

(** A run over two lists of turns is the run over the second from where
    the first ends. *)
Lemma run_app (es1 es2 : list Event) : forall s,
  run (es1 ++ es2) s
  = match run es1 s with Some s' => run es2 s' | None => None end.
Proof.
  induction es1 as [|e es1 IH]; intros s; cbn [app run]; [reflexivity|].
  destruct (step e s); [apply IH|reflexivity].
Qed.

Lemma run_cons (e : Event) (es : list Event) (s : State) :
  run (e :: es) s
  = match step e s with Some s' => run es s' | None => None end.
Proof. reflexivity. Qed.

(** Ticks of the one-minute timer leave the store hours and the window as
    the last load set them. *)
Lemma ticks_keep_window (ts : list Z) : forall s,
  exists s', run (map TickWindow ts) s = Some s'
             /\ storeHours s' = storeHours s
             /\ clockWindowStart s' = clockWindowStart s
             /\ clockWindowEnd s' = clockWindowEnd s.
Proof.
  induction ts as [|t ts IH]; intros s.
  - exists s. repeat split.
  - cbn [map run step].
    destruct (IH (updateClockButtonsState t s)) as (s' & Hrun & Hh & Hs & He).
    destruct (updateClockButtonsState_vars t s) as (Hh' & Hs' & He' & _).
    exists s'. split; [exact Hrun|].
    rewrite Hh, Hs, He. repeat split; assumption.
Qed.

(** C5.  When closing is at or after opening, the window starts 30 minutes
    before opening and ends 30 minutes after closing, both counted from the
    local midnight of the day on which the store hours were fetched,
    whatever the timezone label of the store.  The clock buttons are usable
    exactly when [start <= now <= end] for that stored window, both ends
    included, at the fetch and at every later tick of the timer, which
    never moves the window; so on the day of the fetch the test is that of
    the current day's window.  For 09:00 / 21:00 the window is 08:30 to
    21:30 of the day of the fetch. *)
Theorem C5_same_day_window (s : State) (stores : list Store) (st : Store)
    (open close : HHMM) (now now' : Z) :
  find (fun st => (name st =? storeId s)%string) stores = Some st ->
  opening_time st = Some open ->
  closing_time st = Some close ->
  validHHMM open -> validHHMM close ->
  minutesOf open <= minutesOf close ->
  let s' := fetchStoreHours_2 (StoresOk stores) now now' s in
  let fetched := Date.startOfDay now in
  exists wstart wend,
    clockWindowStart s' = Some wstart /\ clockWindowEnd s' = Some wend
    /\ wstart = fetched + (minutesOf open - 30) * Date.msPerMinute
    /\ wend = fetched + (minutesOf close + 30) * Date.msPerMinute
    /\ (clockPermitted s' = true <-> wstart <= now' <= wend)
    /\ (forall ts t,
          exists s'',
            run (map TickWindow (ts ++ [t])) s' = Some s''
            /\ clockWindowStart s'' = Some wstart
            /\ clockWindowEnd s'' = Some wend
            /\ (clockPermitted s'' = true <-> wstart <= t <= wend)
            /\ (Date.Day t = Date.Day now ->
                let today := Date.startOfDay t in
                clockPermitted s'' = true
                <-> today + (minutesOf open - 30) * Date.msPerMinute <= t
                    <= today + (minutesOf close + 30) * Date.msPerMinute))
    /\ windowStart t_09_00 now
       = Date.MakeDate (Date.Day now) (Date.MakeTime 8 30 0 0)
    /\ windowEnd t_09_00 t_21_00 now
       = Date.MakeDate (Date.Day now) (Date.MakeTime 21 30 0 0).
Proof.
  intros Hfind Ho Hc Hvo Hvc Hle. cbv zeta.
  destruct (fetchStoreHours_2_configured s now now' stores st open close
              Hfind Ho Hc) as (Hh & Hs & He).
  exists (windowStart open now), (windowEnd open close now).
  split; [exact Hs|]. split; [exact He|].
  assert (windowEnd open close now
          = Date.startOfDay now + (minutesOf close + 30) * Date.msPerMinute)
    as Hend.
  { rewrite windowEnd_minutes, (overnight_spec open close Hvo Hvc).
    apply Z.ltb_ge in Hle. rewrite Hle. lia. }
  split; [apply windowStart_minutes|].
  split; [exact Hend|].
  assert (forall t u h wstart wend,
             storeHours u = Some h -> clockWindowStart u = Some wstart ->
             clockWindowEnd u = Some wend ->
             clockPermitted (updateClockButtonsState t u) = true
             <-> wstart <= t <= wend) as Hwin.
  { intros t u h ws we H1 H2 H3.
    rewrite (updateClockButtonsState_window t u h ws we H1 H2 H3).
    rewrite andb_true_iff, !Z.leb_le. reflexivity. }
  split; [|split].
  - unfold fetchStoreHours_2. rewrite Hfind.
    destruct st as [n o c tz]. cbn in Ho, Hc. subst o c.
    eapply Hwin; reflexivity.
  - intros ts t. rewrite map_app, run_app.
    destruct (ticks_keep_window ts
                (fetchStoreHours_2 (StoresOk stores) now now' s))
      as (s1 & Hrun & Hh1 & Hs1 & He1).
    rewrite Hrun. cbn [map run step].
    rewrite Hh in Hh1. rewrite Hs in Hs1. rewrite He in He1.
    destruct (updateClockButtonsState_vars t s1) as (_ & Hs2 & He2 & _).
    eexists. split; [reflexivity|].
    rewrite Hs2, He2. split; [exact Hs1|]. split; [exact He1|].
    split; [eapply Hwin; eassumption|].
    intros Hday. cbv zeta.
    assert (Date.startOfDay t = Date.startOfDay now) as Hsame.
    { unfold Date.startOfDay. rewrite Hday. reflexivity. }
    rewrite Hsame, <- Hend, <- windowStart_minutes.
    eapply Hwin; eassumption.
  - rewrite windowStart_minutes, windowEnd_minutes.
    unfold Date.startOfDay, Date.MakeDate, Date.MakeTime, minutesOf,
      Date.msPerDay, Date.msPerHour, Date.msPerMinute.
    cbn. split; lia.
Qed.

Lemma C5_same_day_window_witness :
  let s' :=
    fetchStoreHours_2
      (StoresOk [store_of (Some t_09_00) (Some t_21_00)])
      monday_10_15 monday_10_15 kiosk in
  exists wstart wend,
    clockWindowStart s' = Some wstart /\ clockWindowEnd s' = Some wend
    /\ wstart = Date.startOfDay monday_10_15 + 510 * Date.msPerMinute
    /\ wend = Date.startOfDay monday_10_15 + 1290 * Date.msPerMinute
    /\ (clockPermitted s' = true <-> wstart <= monday_10_15 <= wend)
    /\ exists s'',
         run (map TickWindow
                ([monday_10_15 + 60000] ++ [monday_10_15 + 120000])) s'
         = Some s''
         /\ (clockPermitted s'' = true
             <-> wstart <= monday_10_15 + 120000 <= wend).
Proof.
  destruct (C5_same_day_window kiosk
              [store_of (Some t_09_00) (Some t_21_00)]
              (store_of (Some t_09_00) (Some t_21_00))
              t_09_00 t_21_00 monday_10_15 monday_10_15)
    as (wstart & wend & Hs & He & Hws & Hwe & Hnow & Hticks & _).
  - reflexivity.
  - reflexivity.
  - reflexivity.
  - unfold validHHMM; simpl; lia.
  - unfold validHHMM; simpl; lia.
  - unfold minutesOf; simpl; lia.
  - exists wstart, wend.
    split; [exact Hs|]. split; [exact He|]. split; [exact Hws|].
    split; [exact Hwe|]. split; [exact Hnow|].
    destruct (Hticks [monday_10_15 + 60000] (monday_10_15 + 120000))
      as (s'' & Hrun & _ & _ & Hp & _).
    exists s''. split; [exact Hrun|exact Hp].
Defined.

(** C5 as stated fails.  (a) The hours 09:00 / 21:00 are fetched on a Monday
    at 10:15 and the timer ticks on the Tuesday at 10:15: that instant lies
    in the 08:30 to 21:30 window of its own day, yet the stored window is
    still Monday's and both clock buttons are disabled.  (b) The window
    fetched at one instant is the same for a store labelled
    [Asia/Tokyo] and one labelled [America/Chicago]: the label is stored
    and not used. *)
Lemma C5_stale_on_later_day :
  (let tuesday_10_15 := monday_10_15 + Date.msPerDay in
   let today := Date.startOfDay tuesday_10_15 in
   exists s',
     run [ Resume 0
             (AnsStores (StoresOk [store_of (Some t_09_00) (Some t_21_00)])
                monday_10_15 monday_10_15);
           TickWindow tuesday_10_15 ]
       (fetchStoreHours_1 kiosk) = Some s'
     /\ today + 510 * Date.msPerMinute <= tuesday_10_15
        <= today + 1290 * Date.msPerMinute
     /\ clockWindowEnd s'
        = Some (Date.startOfDay monday_10_15 + 1290 * Date.msPerMinute)
     /\ disabled (clockInBtn s') = true
     /\ disabled (clockOutBtn s') = true
     /\ clockPermitted s' = false)
  /\ (let tokyo :=
        {| name := "Main St"; opening_time := Some t_09_00;
           closing_time := Some t_21_00; timezone := Some "Asia/Tokyo" |} in
      let chicago := store_of (Some t_09_00) (Some t_21_00) in
      let at_tokyo :=
        fetchStoreHours_2 (StoresOk [tokyo]) monday_10_15 monday_10_15
          kiosk in
      let at_chicago :=
        fetchStoreHours_2 (StoresOk [chicago]) monday_10_15 monday_10_15
          kiosk in
      option_map sh_timezone (storeHours at_tokyo) = Some "Asia/Tokyo"
      /\ option_map sh_timezone (storeHours at_chicago)
         = Some "America/Chicago"
      /\ clockWindowStart at_tokyo = clockWindowStart at_chicago
      /\ clockWindowEnd at_tokyo = clockWindowEnd at_chicago).
Proof.
  split; cbv zeta.
  - eexists. split; [vm_compute; reflexivity|].
    split; [vm_compute; split; discriminate|].
    repeat split.
  - repeat split.
Qed.

Lemma fetchStoreHours_2_missing (s : State) r now now' :
  hoursMissing (storeId s) r ->
  storeHours (fetchStoreHours_2 r now now' s) = None
  /\ clockPermitted (fetchStoreHours_2 r now now' s) = true.
Proof.
  unfold hoursMissing, fetchStoreHours_2. intros H.
  destruct r as [stores|]; [|split; reflexivity].
  destruct (find _ stores) as [[n o c tz]|]; [|split; reflexivity].
  cbn in H. destruct o, c; try (split; reflexivity).
  destruct H; discriminate.
Qed.

(** Ticks of the one-minute timer keep an unrestricted page unrestricted. *)
Lemma ticks_stay_open (ts : list Z) : forall s,
  storeHours s = None -> clockPermitted s = true ->
  exists s', run (map TickWindow ts) s = Some s'
             /\ storeHours s' = None /\ clockPermitted s' = true.
Proof.
  induction ts as [|t ts IH]; intros s Hh Hp.
  - exists s. repeat split; assumption.
  - cbn [map run step].
    apply IH.
    + destruct (updateClockButtonsState_vars t s) as (-> & _). exact Hh.
    + apply updateClockButtonsState_open. exact Hh.
Qed.

(** C6.  When the store has no opening or closing time, or loading the store
    hours fails, the clock buttons are usable as soon as the answer is
    handled and stay usable at every later re-evaluation, whatever the
    times [ts] at which the timer fires and whatever window was in place
    before. *)
Theorem C6_fail_open (s : State) (r : StoresResult) (now now' : Z)
    (ts : list Z) :
  hoursMissing (storeId s) r ->
  let s' := fetchStoreHours_2 r now now' s in
  clockPermitted s' = true
  /\ exists s'', run (map TickWindow ts) s' = Some s''
                 /\ clockPermitted s'' = true.
Proof.
  intros H. cbv zeta.
  destruct (fetchStoreHours_2_missing s r now now' H) as [Hh Hp].
  split; [exact Hp|].
  destruct (ticks_stay_open ts _ Hh Hp) as (s'' & Hrun & _ & Hp'').
  exists s''. split; assumption.
Qed.

Lemma C6_fail_open_witness :
  clockPermitted kiosk_closed = false
  /\ clockPermitted
       (fetchStoreHours_2 StoresThrow monday_10_15 monday_10_15 kiosk_closed)
     = true
  /\ clockPermitted
       (fetchStoreHours_2 (StoresOk [store_of (Some t_09_00) None])
          monday_10_15 monday_10_15 kiosk_closed)
     = true.
Proof.
  split; [reflexivity|]. split.
  - apply (C6_fail_open kiosk_closed StoresThrow monday_10_15 monday_10_15
             []).
    simpl. exact I.
  - apply (C6_fail_open kiosk_closed
             (StoresOk [store_of (Some t_09_00) None])
             monday_10_15 monday_10_15 []).
    simpl. right. reflexivity.
Defined.

(** C10.  When opening and closing are the same time of day the overnight
    test fails, so the end is not moved to the next day: the window runs
    from 30 minutes before to 30 minutes after that time, counted from
    today's midnight, and is one hour long; for a time between 00:30 and
    23:29 both ends are on today's date. *)
Theorem C10_equal_times (s : State) (stores : list Store) (st : Store)
    (t : HHMM) (now now' : Z) :
  find (fun st => (name st =? storeId s)%string) stores = Some st ->
  opening_time st = Some t ->
  closing_time st = Some t ->
  let s' := fetchStoreHours_2 (StoresOk stores) now now' s in
  let today := Date.startOfDay now in
  overnight t t = false
  /\ exists wstart wend,
       clockWindowStart s' = Some wstart /\ clockWindowEnd s' = Some wend
       /\ wstart = today + (minutesOf t - 30) * Date.msPerMinute
       /\ wend = today + (minutesOf t + 30) * Date.msPerMinute
       /\ wend - wstart = Date.msPerHour
       /\ (30 <= minutesOf t < 1410 ->
           Date.Day wstart = Date.Day now /\ Date.Day wend = Date.Day now).
Proof.
  intros Hfind Ho Hc. cbv zeta.
  split; [apply overnight_same|].
  destruct (fetchStoreHours_2_configured s now now' stores st t t
              Hfind Ho Hc) as (_ & Hs & He).
  exists (windowStart t now), (windowEnd t t now).
  split; [exact Hs|]. split; [exact He|].
  rewrite windowStart_minutes, windowEnd_minutes, overnight_same.
  rewrite Z.add_0_r.
  split; [reflexivity|]. split; [reflexivity|].
  split; [unfold Date.msPerHour, Date.msPerMinute; lia|].
  intros Ht.
  split; apply Day_within; unfold Date.msPerDay, Date.msPerMinute; lia.
Qed.

Lemma C10_equal_times_witness :
  let s' :=
    fetchStoreHours_2
      (StoresOk [store_of (Some t_09_00) (Some t_09_00)])
      monday_10_15 monday_10_15 kiosk in
  exists wstart wend,
    clockWindowStart s' = Some wstart /\ clockWindowEnd s' = Some wend
    /\ wstart = Date.startOfDay monday_10_15 + 510 * Date.msPerMinute
    /\ wend = Date.startOfDay monday_10_15 + 570 * Date.msPerMinute.
Proof.
  destruct (C10_equal_times kiosk
              [store_of (Some t_09_00) (Some t_09_00)]
              (store_of (Some t_09_00) (Some t_09_00))
              t_09_00 monday_10_15 monday_10_15)
    as (_ & wstart & wend & Hs & He & Hws & Hwe & _).
  - reflexivity.
  - reflexivity.
  - reflexivity.
  - exists wstart, wend.
    split; [exact Hs|]. split; [exact He|]. split; [exact Hws|exact Hwe].
Defined.

(** ** Cancellation *)





(** ** Submission *)

(** The re-verification asks for the captured descriptor again. *)
Lemma confirmAndProcess_1_request (s : State) (sample : Sample) :
  capturedData s = Some sample ->
  effects (confirmAndProcess_1 s)
  = effects s ++ [ApiRecognize (descriptor sample) (storeId s)]
  /\ tasks (confirmAndProcess_1 s) = tasks s ++ [AwVerify].
Proof.
  intros H. unfold confirmAndProcess_1. rewrite H. split; reflexivity.
Qed.

(** A failed re-verification ends the submission with the recognition
    error and sends nothing. *)
Lemma confirmAndProcess_2_failed (s : State) (error : option string) :
  let s' := confirmAndProcess_2 (RecErr error) s in
  effects s' = effects s ++ [ShowError MsgVerifyFailed TitleNone]
  /\ tasks s' = tasks s
  /\ capturedData s' = capturedData s
  /\ currentAction s' = currentAction s.
Proof. cbv zeta. repeat split. Qed.

(** What a successful re-verification says about the match is not read. *)
Lemma confirmAndProcess_2_ignores_match (e e' : Employee) (s : State) :
  confirmAndProcess_2 (RecOk e) s = confirmAndProcess_2 (RecOk e') s.
Proof. reflexivity. Qed.

(** C2, the code at the failing input.  The first recognition scores 0.82
    and enables the submit action; the re-verification before the commit
    answers with the same employee at confidence 0.10; the clock-in request
    is sent nevertheless, with no error shown. *)
Theorem C2_recheck_below_threshold_submits :
  exists s',
    run (until_verifying ++ [Resume 0 (AnsRecognize (jane c_0_10))]) kiosk
    = Some s'
    /\ JS.lt c_0_10 MIN_CONFIDENCE = true
    /\ effects s'
       = [ GetUserMedia; LoadModels; CaptureFrame; StopTracks;
           ApiRecognize face "Main St";
           ApiRecognize face "Main St";
           ApiClockIn face jpeg "Main St" ]
    /\ tasks s' = [AwClock].
Proof.
  eexists. split; [vm_compute; reflexivity|].
  repeat split.
Qed.

(** C7, as the code has it.  After a rejected submission the store hours
    are requested again at once, whatever the error code (the code only
    picks the title of the dialog).  The captured sample and the pending
    action are kept, and the refresh is the only call that is started: no
    recognition and no submission is repeated.  The same holds when no
    request was sent because no action was pending. *)
Theorem C7_rejection_refreshes_policy (s : State)
    (error error_code : option string) (metadata : option (Z * Z)) :
  rejection_handled s
    (confirmAndProcess_3 (Some (ClockErr error error_code metadata)) s)
  /\ rejection_handled s (confirmAndProcess_3 None s).
Proof.
  unfold rejection_handled, confirmAndProcess_3. cbn.
  split; repeat split; do 2 eexists; rewrite <- app_assoc; reflexivity.
Qed.

(** C7 as stated fails: a submission rejected with the code
    [VALIDATION_ERROR], which is not about the clock window, is followed by
    the same request for the store hours. *)
Lemma C7_refresh_on_other_failure :
  exists s',
    run (until_verifying
         ++ [ Resume 0 (AnsRecognize (jane c_0_82));
              Resume 0 (AnsClock
                          (ClockErr (Some "Invalid face image")
                             (Some "VALIDATION_ERROR") None)) ]) kiosk
    = Some s'
    /\ failureTitle "VALIDATION_ERROR" = TitleError
    /\ effects s'
       = [ GetUserMedia; LoadModels; CaptureFrame; StopTracks;
           ApiRecognize face "Main St";
           ApiRecognize face "Main St";
           ApiClockIn face jpeg "Main St";
           ShowError (MsgClockFailed "clock in" "Invalid face image" None)
             TitleError;
           ApiGetStores ]
    /\ tasks s' = [AwStores].
Proof.
  eexists. split; [vm_compute; reflexivity|].
  repeat split.
Qed.

(** ** Enrollment and retry *)

(** The log is written by appending one entry at a time. *)
Lemma snoc_cons {A} (l : list A) (x y : A) (m : list A) :
  l ++ x :: y :: m = (l ++ [x]) ++ y :: m.
Proof. rewrite <- app_assoc. reflexivity. Qed.

(** The threshold test of the source in terms of [confirmed]. *)
Lemma confirmed_spec (e : Employee) :
  JS.lt (JS.or_zero (confidence e)) MIN_CONFIDENCE = negb (confirmed e).
Proof.
  unfold confirmed. destruct (confidence e) as [c|].
  - apply below_threshold.
  - reflexivity.
Qed.

(** A capture on a page with nothing in flight: the frame is taken, the
    sample is kept and its recognition is requested. *)
Lemma capture_taken (s : State) (d : Descriptor) (img : Image) :
  tasks s = [] ->
  exists s2,
    run [ClickCapture; Resume 0 (AnsCapture (CaptureOk d img))] s = Some s2
    /\ effects s2
       = effects s
         ++ [CaptureFrame]
         ++ (if video_srcObject s then [StopTracks] else [])
         ++ [ApiRecognize d (storeId s)]
    /\ tasks s2 = [AwRecognize]
    /\ capturedData s2 = Some {| descriptor := d; imageDataUrl := img |}
    /\ storeId s2 = storeId s
    /\ addAppearanceBtn s2 = addAppearanceBtn s.
Proof.
  intros Htasks.
  destruct s as [store act data hours ws we video cb cc pp src confirm
                   cin cout panel status loading btn effs tsk].
  cbn in Htasks. subst tsk.
  match goal with |- context [run ?es ?s0] =>
    destruct (run es s0) as [s2|] eqn:H2 end.
  2: destruct video; vm_compute in H2; discriminate.
  exists s2. split; [reflexivity|].
  destruct video; vm_compute in H2; injection H2 as <-;
    fold (@app Effect); cbn [effects tasks capturedData storeId
                             addAppearanceBtn video_srcObject app];
    rewrite <- ?app_assoc; repeat split.
Qed.

(** The answer to the recognition of a capture. *)
Lemma first_answer (s : State) (first : RecognizeResult) :
  tasks s = [AwRecognize] ->
  exists s3,
    step (Resume 0 (AnsRecognize first)) s = Some s3
    /\ effects s3 = effects s
    /\ tasks s3 = []
    /\ capturedData s3 = capturedData s
    /\ storeId s3 = storeId s
    /\ addAppearanceBtn s3
       = option_map (listenersAfter first) (addAppearanceBtn s)
    /\ submitEnabled s3 = retryGate false first
    /\ recognitionResult s3 = recognitionResult (captureFace_3 first s).
Proof.
  intros Htasks. cbn [step]. rewrite Htasks.
  cbn [nth_error resume drop_nth].
  eexists. split; [reflexivity|].
  destruct first as [e|error]; unfold captureFace_3, submitEnabled, retryGate.
  - rewrite confirmed_spec.
    destruct (addAppearanceBtn s) eqn:Hbtn, (confirmed e);
      cbn; rewrite ?Hbtn; repeat split.
  - unfold addListener. cbn.
    destruct (addAppearanceBtn s) eqn:Hbtn; cbn; rewrite ?Hbtn;
      repeat split.
Qed.

(** One listener on a click, with a name and a sample. *)
Lemma addAppearance_1_enrolls (who : string) (sample : Sample) (s : State) :
  who <> "" ->
  capturedData s = Some sample ->
  let s' := addAppearance_1 (Some who) s in
  effects s'
  = effects s
    ++ [ApiAddAppearance who (descriptor sample) (imageDataUrl sample)]
  /\ tasks s' = tasks s ++ [AwAddAppearance]
  /\ capturedData s' = capturedData s
  /\ storeId s' = storeId s
  /\ addAppearanceBtn s' = addAppearanceBtn s
  /\ confirmPhotoBtn s' = confirmPhotoBtn s
  /\ recognitionResult s' = recognitionResult s.
Proof.
  intros Hwho Hd. cbv zeta. unfold addAppearance_1.
  destruct (who =? "")%string eqn:Hw;
    [apply String.eqb_eq in Hw; contradiction|].
  rewrite Hd. repeat split. cbn. exact Hd.
Qed.

(** A click runs every listener: one enrollment request each. *)
Lemma click_enrolls (who : string) (sample : Sample) (k : nat) :
  who <> "" ->
  forall s,
    capturedData s = Some sample ->
    let s' := dispatch k (addAppearance_1 (Some who)) s in
    effects s'
    = effects s
      ++ repeat (ApiAddAppearance who (descriptor sample)
                   (imageDataUrl sample)) k
    /\ tasks s' = tasks s ++ repeat AwAddAppearance k
    /\ capturedData s' = capturedData s
    /\ storeId s' = storeId s
    /\ addAppearanceBtn s' = addAppearanceBtn s
    /\ confirmPhotoBtn s' = confirmPhotoBtn s
    /\ recognitionResult s' = recognitionResult s.
Proof.
  intros Hwho. induction k as [|k IH]; intros s Hd; cbv zeta;
    cbn [dispatch repeat].
  - rewrite !app_nil_r. repeat split.
  - destruct (addAppearance_1_enrolls who sample s Hwho Hd)
      as (He1 & Ht1 & Hd1 & Hs1 & Hb1 & Hc1 & Hp1).
    cbv zeta in IH.
    destruct (IH (addAppearance_1 (Some who) s))
      as (He & Ht & Hd' & Hs & Hb & Hc & Hp).
    { rewrite Hd1. exact Hd. }
    rewrite He, Ht, Hd', Hs, Hb, Hc, Hp, He1, Ht1, <- !app_assoc.
    repeat split; assumption.
Qed.

(** One listener on the answer that its enrollment succeeded: the retry. *)
Lemma addAppearance_2_retries (total : Z) (sample : Sample) (s : State) :
  capturedData s = Some sample ->
  let s' := addAppearance_2 (AddOk total) s in
  effects s'
  = effects s
    ++ [ShowInfo (MsgAppearanceAdded total);
        ApiRecognize (descriptor sample) (storeId s)]
  /\ tasks s' = tasks s ++ [AwRetry]
  /\ capturedData s' = capturedData s
  /\ storeId s' = storeId s
  /\ addAppearanceBtn s' = addAppearanceBtn s
  /\ confirmPhotoBtn s' = confirmPhotoBtn s
  /\ recognitionResult s' = recognitionResult s.
Proof.
  intros Hd. cbv zeta. unfold addAppearance_2.
  cbn [capturedData showLoading showInfo updateStatus emit
       set_loadingIndicator_display set_statusText set_effects].
  rewrite Hd. cbn. rewrite <- app_assoc. repeat split. exact Hd.
Qed.

(** The answers to the enrollment requests, oldest first: every one starts
    one recognition of the captured descriptor. *)
Lemma enrollments_answered (sample : Sample) (totals : list Z) :
  forall s rest,
    capturedData s = Some sample ->
    tasks s = repeat AwAddAppearance (List.length totals) ++ rest ->
    exists s',
      run (map (fun total => Resume 0 (AnsAdd (AddOk total))) totals) s
      = Some s'
      /\ effects s'
         = effects s
           ++ flat_map
                (fun total =>
                   [ShowInfo (MsgAppearanceAdded total);
                    ApiRecognize (descriptor sample) (storeId s)]) totals
      /\ tasks s' = rest ++ repeat AwRetry (List.length totals)
      /\ capturedData s' = capturedData s
      /\ storeId s' = storeId s
      /\ addAppearanceBtn s' = addAppearanceBtn s
      /\ confirmPhotoBtn s' = confirmPhotoBtn s
      /\ recognitionResult s' = recognitionResult s.
Proof.
  induction totals as [|total totals IH]; intros s rest Hd Ht.
  - exists s. cbn in Ht |- *. rewrite !app_nil_r.
    repeat split. exact Ht.
  - cbn [map]. rewrite run_cons. cbn [step]. rewrite Ht.
    cbn [List.length repeat app nth_error resume drop_nth].
    set (s0 := set_tasks (repeat AwAddAppearance (List.length totals) ++ rest) s).
    destruct (addAppearance_2_retries total sample s0 Hd)
      as (He1 & Ht1 & Hd1 & Hs1 & Hb1 & Hc1 & Hp1).
    cbv zeta in He1, Ht1, Hd1, Hs1, Hb1, Hc1, Hp1.
    destruct (IH (addAppearance_2 (AddOk total) s0) (rest ++ [AwRetry]))
      as (s' & Hrun & He & Ht' & Hd' & Hs & Hb & Hc & Hp).
    { rewrite Hd1. exact Hd. }
    { rewrite Ht1. unfold s0. cbn [tasks set_tasks].
      rewrite <- app_assoc. reflexivity. }
    exists s'. split; [exact Hrun|].
    rewrite He, Ht', Hd', Hs, Hb, Hc, Hp, He1, Hs1, Hd1, Hb1, Hc1, Hp1.
    unfold s0.
    cbn [effects storeId capturedData addAppearanceBtn confirmPhotoBtn
         recognitionResult set_tasks flat_map].
    rewrite <- !app_assoc.
    split; [reflexivity|]. repeat split.
Qed.

(** The answers to the retries, oldest first: none starts anything, and the
    submit action and the panel follow each answer in turn. *)
Lemma retries_answered (retries : list RecognizeResult) :
  forall s,
    tasks s = repeat AwRetry (List.length retries) ->
    exists s',
      run (map (fun r => Resume 0 (AnsRecognize r)) retries) s = Some s'
      /\ effects s' = effects s
      /\ tasks s' = []
      /\ capturedData s' = capturedData s
      /\ storeId s' = storeId s
      /\ addAppearanceBtn s' = addAppearanceBtn s
      /\ submitEnabled s' = fold_left retryGate retries (submitEnabled s)
      /\ recognitionResult s'
         = fold_left (fun _ r => retryPanel r) retries (recognitionResult s).
Proof.
  induction retries as [|r retries IH]; intros s Ht.
  - exists s. cbn in Ht |- *. repeat split. exact Ht.
  - cbn [map]. rewrite run_cons. cbn [step]. rewrite Ht.
    cbn [List.length repeat nth_error resume drop_nth].
    set (s0 := set_tasks (repeat AwRetry (List.length retries)) s).
    destruct (IH (addAppearance_3 r s0))
      as (s' & Hrun & He & Ht' & Hd & Hs & Hb & Hg & Hp).
    { unfold addAppearance_3, s0. destruct r as [e|error].
      - destruct (JS.lt (JS.or_zero (confidence e)) MIN_CONFIDENCE);
          reflexivity.
      - reflexivity. }
    exists s'. split; [exact Hrun|].
    rewrite He, Ht', Hd, Hs, Hb, Hg, Hp.
    cbn [fold_left]. unfold addAppearance_3, submitEnabled, s0.
    destruct r as [e|error].
    + unfold retryGate, retryPanel. rewrite confirmed_spec.
      destruct (confirmed e); cbn; repeat split.
    + cbn. repeat split.
Qed.

(** C8.  An enrollment and its retries, on a page with nothing in flight
    whose add-appearance button has [n] listeners.  A capture is answered
    by [first]; the button then has one listener more when the answer is a
    failure and as many as before when it is a match, a low-confidence
    match included.  One click with the name the operator typed runs every
    listener [k] there is: each sends the captured descriptor and image as
    a new appearance, and each one whose enrollment succeeds asks for
    recognition once more with that same descriptor.  A retry answer is
    judged like a first one: a match enables the submit action exactly
    when its confidence is [>= 0.3] and a failure leaves it as it was; no
    answer to a retry starts another call, and nothing is left in flight:
    [1 + k] recognition requests in all. *)
Theorem C8_enrollment_retry (s : State) (n : nat) (d : Descriptor)
    (img : Image) (first : RecognizeResult) (who : string)
    (totals : list Z) (retries : list RecognizeResult) :
  who <> "" ->
  addAppearanceBtn s = Some n ->
  tasks s = [] ->
  List.length totals = listenersAfter first n ->
  List.length retries = listenersAfter first n ->
  exists s',
    run (enrollment_retry d img first who totals retries) s = Some s'
    /\ addAppearanceBtn s' = Some (listenersAfter first n)
    /\ effects s'
       = effects s
         ++ [CaptureFrame]
         ++ (if video_srcObject s then [StopTracks] else [])
         ++ [ApiRecognize d (storeId s)]
         ++ repeat (ApiAddAppearance who d img) (listenersAfter first n)
         ++ flat_map
              (fun total =>
                 [ShowInfo (MsgAppearanceAdded total);
                  ApiRecognize d (storeId s)]) totals
    /\ tasks s' = []
    /\ capturedData s' = Some {| descriptor := d; imageDataUrl := img |}
    /\ submitEnabled s'
       = fold_left retryGate retries (retryGate false first)
    /\ recognitionResult s'
       = fold_left (fun _ r => retryPanel r) retries
           (recognitionResult (captureFace_3 first s)).
Proof.
  intros Hwho Hbtn Htasks Htotals Hretries.
  set (k := listenersAfter first n) in *.
  set (sample := {| descriptor := d; imageDataUrl := img |}).
  unfold enrollment_retry.
  change [ClickCapture; Resume 0 (AnsCapture (CaptureOk d img));
          Resume 0 (AnsRecognize first); ClickAddAppearance (Some who)]
    with ([ClickCapture; Resume 0 (AnsCapture (CaptureOk d img))]
          ++ [Resume 0 (AnsRecognize first);
              ClickAddAppearance (Some who)]).
  rewrite <- app_assoc, run_app.
  destruct (capture_taken s d img Htasks)
    as (s2 & Hrun2 & He2 & Ht2 & Hd2 & Hs2 & Hb2).
  rewrite Hrun2. cbn [app]. rewrite run_cons.
  destruct (first_answer s2 first Ht2)
    as (s3 & Hstep3 & He3 & Ht3 & Hd3 & Hs3 & Hb3 & Hg3 & Hp3).
  rewrite Hstep3, run_cons. cbn [step].
  rewrite Hb3, Hb2, Hbtn. cbn [option_map]. fold k.
  assert (capturedData s3 = Some sample) as Hd3'
      by (rewrite Hd3; exact Hd2).
  destruct (click_enrolls who sample k Hwho s3 Hd3')
    as (He4 & Ht4 & Hd4 & Hs4 & Hb4 & Hc4 & Hp4).
  cbv zeta in He4, Ht4, Hd4, Hs4, Hb4, Hc4, Hp4.
  set (s4 := dispatch k (addAppearance_1 (Some who)) s3) in *.
  rewrite run_app.
  destruct (enrollments_answered sample totals s4 [])
    as (s5 & Hrun5 & He5 & Ht5 & Hd5 & Hs5 & Hb5 & Hc5 & Hp5).
  { rewrite Hd4. exact Hd3'. }
  { rewrite Ht4, Ht3, Htotals, app_nil_r. reflexivity. }
  rewrite Hrun5.
  destruct (retries_answered retries s5)
    as (s6 & Hrun6 & He6 & Ht6 & Hd6 & Hs6 & Hb6 & Hg6 & Hp6).
  { rewrite Ht5, Hretries, Htotals. reflexivity. }
  exists s6. split; [exact Hrun6|].
  split.
  { rewrite Hb6, Hb5, Hb4, Hb3, Hb2, Hbtn. reflexivity. }
  split.
  { rewrite He6, He5, He4, He3, He2, Hs4, Hs3, Hs2, <- !app_assoc.
    reflexivity. }
  split; [exact Ht6|].
  split.
  { rewrite Hd6, Hd5, Hd4. exact Hd3'. }
  split.
  { rewrite Hg6. unfold submitEnabled at 1. rewrite Hc5, Hc4.
    fold (submitEnabled s3). rewrite Hg3. reflexivity. }
  rewrite Hp6, Hp5, Hp4, Hp3.
  f_equal. unfold captureFace_3.
  destruct first as [e|error].
  - destruct (JS.lt (JS.or_zero (confidence e)) MIN_CONFIDENCE);
      reflexivity.
  - unfold addListener. cbn. rewrite Hb2, Hbtn. reflexivity.
Qed.

Lemma C8_enrollment_retry_witness :
  (exists s',
      run (enrollment_retry face jpeg (RecErr None) "Jane Doe" [2]
             [jane c_0_55]) kiosk = Some s'
      /\ effects s'
         = [ CaptureFrame; ApiRecognize face "Main St";
             ApiAddAppearance "Jane Doe" face jpeg;
             ShowInfo (MsgAppearanceAdded 2);
             ApiRecognize face "Main St" ]
      /\ tasks s' = []
      /\ submitEnabled s' = true
      /\ recognitionResult s' = PanelRecognized "Jane Doe" c_0_55)
  /\ (exists s',
         run (enrollment_retry face jpeg (RecErr None) "Jane Doe" [2]
                [jane c_0_25]) kiosk = Some s'
         /\ submitEnabled s' = false
         /\ recognitionResult s' = PanelStillLow c_0_25)
  /\ (exists s',
         run (enrollment_retry face jpeg (RecErr None) "Jane Doe" [2]
                [jane (S754_finite false 5404319552844595 (-54))]) kiosk
         = Some s'
         /\ submitEnabled s' = true).
Proof.
  split; [|split].
  - destruct (C8_enrollment_retry kiosk 0 face jpeg (RecErr None)
                "Jane Doe" [2] [jane c_0_55])
      as (s' & Hrun & _ & He & Ht & _ & Hg & Hp).
    + discriminate.
    + reflexivity.
    + reflexivity.
    + reflexivity.
    + reflexivity.
    + exists s'. split; [exact Hrun|].
      split; [exact He|]. split; [exact Ht|].
      split; [exact Hg|exact Hp].
  - destruct (C8_enrollment_retry kiosk 0 face jpeg (RecErr None)
                "Jane Doe" [2] [jane c_0_25])
      as (s' & Hrun & _ & _ & _ & _ & Hg & Hp).
    + discriminate.
    + reflexivity.
    + reflexivity.
    + reflexivity.
    + reflexivity.
    + exists s'. split; [exact Hrun|]. split; [exact Hg|exact Hp].
  - destruct (C8_enrollment_retry kiosk 0 face jpeg (RecErr None)
                "Jane Doe" [2]
                [jane (S754_finite false 5404319552844595 (-54))])
      as (s' & Hrun & _ & _ & _ & _ & Hg & _).
    + discriminate.
    + reflexivity.
    + reflexivity.
    + reflexivity.
    + reflexivity.
    + exists s'. split; [exact Hrun|exact Hg].
Defined.

(** C8 as stated fails.  (a) After two captures that were not recognised
    the add-appearance button has two listeners, and one click sends two
    enrollment requests and, once they are answered, two recognition
    retries, where the claim has a single one.  (b) On a page whose button has no
    listener yet, a capture answered by a match of confidence 0.25 adds
    none: the click that follows changes nothing, so that capture is never
    enrolled and never retried. *)
Lemma C8_click_runs_every_listener :
  (exists s',
      run two_captures_one_click kiosk = Some s'
      /\ addAppearanceBtn s' = Some 2%nat
      /\ effects s'
         = [ GetUserMedia; LoadModels;
             CaptureFrame; StopTracks; ApiRecognize face "Main St";
             GetUserMedia; LoadModels;
             CaptureFrame; StopTracks; ApiRecognize face "Main St";
             ApiAddAppearance "Jane Doe" face jpeg;
             ApiAddAppearance "Jane Doe" face jpeg;
             ShowInfo (MsgAppearanceAdded 2);
             ApiRecognize face "Main St";
             ShowInfo (MsgAppearanceAdded 3);
             ApiRecognize face "Main St" ]
      /\ List.length (filter isEnrollment (effects s')) = 2%nat
      /\ List.length (filter isRecognition (skipn 10 (effects s')))
         = 2%nat
      /\ tasks s' = [])
  /\ (exists low s',
         run (until_recognizing ++ [Resume 0 (AnsRecognize (jane c_0_25))])
           kiosk = Some low
         /\ recognitionResult low = PanelLowConfidence "Jane Doe" c_0_25
         /\ submitEnabled low = false
         /\ addAppearanceBtn low = Some 0%nat
         /\ step (ClickAddAppearance (Some "Jane Doe")) low = Some s'
         /\ s' = low
         /\ filter isEnrollment (effects s') = []
         /\ tasks s' = []).
Proof.
  split.
  - eexists. split; [vm_compute; reflexivity|]. repeat split.
  - eexists. eexists. split; [vm_compute; reflexivity|].
    split; [reflexivity|]. split; [reflexivity|]. split; [reflexivity|].
    split; [vm_compute; reflexivity|]. repeat split.
Qed.

(** * Further properties of the page *)

(** ** Submissions *)

(** Unfolds the handlers down to the field updates. *)
Ltac unfold_handlers :=
  unfold showCamera_3, showCamera_2, showCamera_1, captureFace_3,
    captureFace_2, captureFace_1, addAppearance_3, addAppearance_2,
    addAppearance_1, confirmAndProcess_3, confirmAndProcess_1,
    fetchStoreHours_2, fetchStoreHours_1, updateClockButtonsState,
    hideCamera, stopCamera, addListener, showError, showInfo, showWarning,
    showLoading, updateStatus, suspend, emit in *.

(** Splits on the tests a handler makes, innermost first. *)
Ltac split_tests :=
  repeat match goal with
    | |- context [match ?x with _ => _ end] =>
        lazymatch x with
        | context [match _ with _ => _ end] => fail
        | _ => destruct x eqn:?
        end
    end.

(** Closes a goal that says a handler sends no submission. *)
Ltac no_submission :=
  unfold clockRequests; unfold_handlers; split_tests; cbn;
  rewrite ?filter_app; cbn; rewrite ?app_nil_r; reflexivity.

Lemma clockRequests_set_tasks (t : list Await) (s : State) :
  clockRequests (set_tasks t s) = clockRequests s.
Proof. reflexivity. Qed.

Lemma showCamera_1_quiet a s : clockRequests (showCamera_1 a s) = clockRequests s.
Proof. no_submission. Qed.

Lemma showCamera_2_quiet r s : clockRequests (showCamera_2 r s) = clockRequests s.
Proof. no_submission. Qed.

Lemma showCamera_3_quiet b s : clockRequests (showCamera_3 b s) = clockRequests s.
Proof. no_submission. Qed.

Lemma hideCamera_quiet s : clockRequests (hideCamera s) = clockRequests s.
Proof. no_submission. Qed.

Lemma captureFace_1_quiet s : clockRequests (captureFace_1 s) = clockRequests s.
Proof. no_submission. Qed.

Lemma captureFace_2_quiet r s : clockRequests (captureFace_2 r s) = clockRequests s.
Proof. no_submission. Qed.

Lemma captureFace_3_quiet r s : clockRequests (captureFace_3 r s) = clockRequests s.
Proof. no_submission. Qed.

Lemma addAppearance_1_quiet n s : clockRequests (addAppearance_1 n s) = clockRequests s.
Proof. no_submission. Qed.

Lemma addAppearance_2_quiet r s : clockRequests (addAppearance_2 r s) = clockRequests s.
Proof. no_submission. Qed.

Lemma addAppearance_3_quiet r s : clockRequests (addAppearance_3 r s) = clockRequests s.
Proof. no_submission. Qed.

Lemma confirmAndProcess_1_quiet s : clockRequests (confirmAndProcess_1 s) = clockRequests s.
Proof. no_submission. Qed.

Lemma confirmAndProcess_3_quiet r s : clockRequests (confirmAndProcess_3 r s) = clockRequests s.
Proof. no_submission. Qed.

Lemma fetchStoreHours_2_quiet r now now' s :
  clockRequests (fetchStoreHours_2 r now now' s) = clockRequests s.
Proof. no_submission. Qed.

Lemma updateClockButtonsState_quiet now s :
  clockRequests (updateClockButtonsState now s) = clockRequests s.
Proof. no_submission. Qed.

Lemma dispatch_quiet (f : State -> State) :
  (forall s, clockRequests (f s) = clockRequests s) ->
  forall n s, clockRequests (dispatch n f s) = clockRequests s.
Proof.
  intros Hf. induction n as [|n IH]; intros s; cbn [dispatch].
  - reflexivity.
  - rewrite IH. apply Hf.
Qed.

(** What the continuation of the re-verification sends: the submission for
    the pending action with the captured sample when both are there and
    the answer is a match, and nothing otherwise. *)
Lemma confirmAndProcess_2_sends (r : RecognizeResult) (s : State) :
  clockRequests (confirmAndProcess_2 r s)
  = clockRequests s
    ++ match r, currentAction s, capturedData s with
       | RecOk _, Some a, Some sample =>
           [clockRequestFor a sample (storeId s)]
       | _, _, _ => []
       end.
Proof.
  unfold confirmAndProcess_2. destruct r as [e|err].
  - cbn [currentAction capturedData updateStatus set_statusText].
    destruct (currentAction s) as [[|]|] eqn:Ha,
      (capturedData s) as [sample|] eqn:Hd;
      try (unfold clockRequests, suspend, emit; cbn;
           rewrite ?filter_app, ?app_nil_r; reflexivity).
    all: rewrite confirmAndProcess_3_quiet, app_nil_r; reflexivity.
  - unfold clockRequests, showError, showLoading, emit. cbn.
    rewrite filter_app, !app_nil_r. reflexivity.
Qed.

(** What one turn of the event loop does to the submissions. *)
Lemma step_submissions (e : Event) (s s' : State) :
  step e s = Some s' ->
  clockRequests s' = clockRequests s
  \/ exists i emp a sample,
       e = Resume i (AnsRecognize (RecOk emp))
       /\ nth_error (tasks s) i = Some AwVerify
       /\ currentAction s = Some a
       /\ capturedData s = Some sample
       /\ clockRequests s'
          = clockRequests s ++ [clockRequestFor a sample (storeId s)].
Proof.
  destruct e as [| | | | | |who|now|i ans]; cbn [step]; intros H.
  - injection H as <-. left.
    destruct (disabled (clockInBtn s)); [reflexivity|apply showCamera_1_quiet].
  - injection H as <-. left.
    destruct (disabled (clockOutBtn s)); [reflexivity|apply showCamera_1_quiet].
  - injection H as <-. left. apply captureFace_1_quiet.
  - injection H as <-. left. apply hideCamera_quiet.
  - injection H as <-. left.
    destruct (disabled (confirmPhotoBtn s));
      [reflexivity|apply confirmAndProcess_1_quiet].
  - injection H as <-. left. rewrite showCamera_1_quiet. reflexivity.
  - destruct (addAppearanceBtn s) as [n|]; [|discriminate].
    injection H as <-. left.
    apply dispatch_quiet. intros u. apply addAppearance_1_quiet.
  - injection H as <-. left. apply updateClockButtonsState_quiet.
  - destruct (nth_error (tasks s) i) as [a|] eqn:Hi; [|discriminate].
    destruct a, ans; cbn [resume] in H; try discriminate;
      injection H as <-.
    + left. exact (showCamera_2_quiet r (set_tasks _ s)).
    + left. exact (showCamera_3_quiet loaded (set_tasks _ s)).
    + left. exact (captureFace_2_quiet r (set_tasks _ s)).
    + left. exact (captureFace_3_quiet r (set_tasks _ s)).
    + left. exact (addAppearance_2_quiet r (set_tasks _ s)).
    + left. exact (addAppearance_3_quiet r (set_tasks _ s)).
    + pose proof (confirmAndProcess_2_sends r (set_tasks (drop_nth i (tasks s)) s))
        as Hsend.
      cbn [currentAction capturedData storeId set_tasks] in Hsend.
      rewrite clockRequests_set_tasks in Hsend.
      destruct r as [emp|err];
        [|left; rewrite Hsend; apply app_nil_r].
      destruct (currentAction s) as [a|] eqn:Ha;
        [|left; rewrite Hsend; apply app_nil_r].
      destruct (capturedData s) as [sample|] eqn:Hd;
        [|left; rewrite Hsend; apply app_nil_r].
      right. exists i, emp, a, sample. repeat split; auto.
    + left. exact (confirmAndProcess_3_quiet (Some r) (set_tasks _ s)).
    + left. exact (fetchStoreHours_2_quiet r now now' (set_tasks _ s)).
Qed.

(** X1.  A turn of the event loop sends a submission only when it hands a
    successful recognition answer to the suspended re-verification of
    [confirmAndProcess] while an action is pending and a sample is held; it
    then sends exactly one, for that action and that sample, and every
    other turn leaves the submissions as they were.  Hence over any
    sequence of turns the number of submissions grows by at most the number
    of turns that carry a successful recognition answer. *)
Theorem submissions_need_verification :
  (forall e s s',
      step e s = Some s' ->
      clockRequests s' = clockRequests s
      \/ exists i emp a sample,
           e = Resume i (AnsRecognize (RecOk emp))
           /\ nth_error (tasks s) i = Some AwVerify
           /\ currentAction s = Some a
           /\ capturedData s = Some sample
           /\ clockRequests s'
              = clockRequests s ++ [clockRequestFor a sample (storeId s)])
  /\ (forall es s s',
        run es s = Some s' ->
        (List.length (clockRequests s')
         <= List.length (clockRequests s)
            + List.length (filter isMatchAnswer es))%nat).
Proof.
  split; [exact step_submissions|].
  induction es as [|e es IH]; intros s s' H; cbn [run] in H.
  - injection H as <-. cbn. lia.
  - destruct (step e s) as [s1|] eqn:Hstep; [|discriminate].
    specialize (IH _ _ H).
    destruct (step_submissions _ _ _ Hstep)
      as [Hsame | (i & emp & a & sample & -> & _ & _ & _ & Hsend)].
    + rewrite Hsame in IH. cbn [filter].
      destruct (isMatchAnswer e); cbn [List.length]; lia.
    + rewrite Hsend, List.length_app in IH. cbn in IH |- *. lia.
Qed.

Lemma submissions_need_verification_witness :
  exists s',
    run (until_verifying ++ [Resume 0 (AnsRecognize (jane c_0_82))]) kiosk
    = Some s'
    /\ (List.length (clockRequests s') <= 2)%nat.
Proof.
  eexists. split; [vm_compute; reflexivity|].
  apply (proj2 submissions_need_verification
           (until_verifying ++ [Resume 0 (AnsRecognize (jane c_0_82))])
           kiosk).
  vm_compute. reflexivity.
Defined.

(** ** The window between two loads of the store hours *)





(** ** A whole attendance action *)




(** ** The variables of the clock window *)

(** Closes a goal that says a handler leaves the window variables alone. *)
Ltac keeps_window :=
  unfold windowVars; unfold_handlers; split_tests; cbn; congruence.

Lemma showCamera_1_window a s : windowVars (showCamera_1 a s) = windowVars s.
Proof. keeps_window. Qed.

Lemma showCamera_2_window r s : windowVars (showCamera_2 r s) = windowVars s.
Proof. keeps_window. Qed.

Lemma showCamera_3_window b s : windowVars (showCamera_3 b s) = windowVars s.
Proof. keeps_window. Qed.

Lemma hideCamera_window s : windowVars (hideCamera s) = windowVars s.
Proof. keeps_window. Qed.

Lemma captureFace_1_window s : windowVars (captureFace_1 s) = windowVars s.
Proof. keeps_window. Qed.

Lemma captureFace_2_window r s : windowVars (captureFace_2 r s) = windowVars s.
Proof. keeps_window. Qed.

Lemma captureFace_3_window r s : windowVars (captureFace_3 r s) = windowVars s.
Proof. keeps_window. Qed.

Lemma addAppearance_1_window n s :
  windowVars (addAppearance_1 n s) = windowVars s.
Proof. keeps_window. Qed.

Lemma addAppearance_2_window r s :
  windowVars (addAppearance_2 r s) = windowVars s.
Proof. keeps_window. Qed.

Lemma addAppearance_3_window r s :
  windowVars (addAppearance_3 r s) = windowVars s.
Proof. keeps_window. Qed.

Lemma confirmAndProcess_1_window s :
  windowVars (confirmAndProcess_1 s) = windowVars s.
Proof. keeps_window. Qed.

Lemma confirmAndProcess_3_window r s :
  windowVars (confirmAndProcess_3 r s) = windowVars s.
Proof. keeps_window. Qed.

Lemma confirmAndProcess_2_window r s :
  windowVars (confirmAndProcess_2 r s) = windowVars s.
Proof.
  unfold confirmAndProcess_2.
  destruct r as [e|err]; [|keeps_window].
  destruct (currentAction (updateStatus StProcessing Blue s)) as [[|]|],
    (capturedData (updateStatus StProcessing Blue s));
    try rewrite confirmAndProcess_3_window; reflexivity.
Qed.

Lemma updateClockButtonsState_windowVars now s :
  windowVars (updateClockButtonsState now s) = windowVars s.
Proof. keeps_window. Qed.

Lemma dispatch_window (f : State -> State) :
  (forall s, windowVars (f s) = windowVars s) ->
  forall n s, windowVars (dispatch n f s) = windowVars s.
Proof.
  intros Hf. induction n as [|n IH]; intros s; cbn [dispatch].
  - reflexivity.
  - rewrite IH. apply Hf.
Qed.

Lemma windowSet_of_vars (s s' : State) :
  windowVars s' = windowVars s -> windowSet s -> windowSet s'.
Proof.
  unfold windowVars, windowSet. intros H. injection H as -> -> ->. auto.
Qed.

Lemma fetchStoreHours_2_windowSet r now now' s :
  windowSet (fetchStoreHours_2 r now now' s).
Proof.
  unfold fetchStoreHours_2.
  destruct r as [stores|];
    [destruct (find _ stores) as [[n [o|] [c|] tz]|]|];
    (eapply windowSet_of_vars;
     [apply updateClockButtonsState_windowVars|]);
    unfold windowSet; cbn; intros H; try congruence.
  split; discriminate.
Qed.

(** Every turn keeps [windowSet]. *)
Lemma step_keeps_windowSet (e : Event) (s s' : State) :
  step e s = Some s' -> windowSet s -> windowSet s'.
Proof.
  destruct e as [| | | | | |who|now|i ans]; cbn [step]; intros H.
  - injection H as <-. apply windowSet_of_vars.
    destruct (disabled (clockInBtn s)); [reflexivity|apply showCamera_1_window].
  - injection H as <-. apply windowSet_of_vars.
    destruct (disabled (clockOutBtn s)); [reflexivity|apply showCamera_1_window].
  - injection H as <-. apply windowSet_of_vars, captureFace_1_window.
  - injection H as <-. apply windowSet_of_vars, hideCamera_window.
  - injection H as <-. apply windowSet_of_vars.
    destruct (disabled (confirmPhotoBtn s));
      [reflexivity|apply confirmAndProcess_1_window].
  - injection H as <-. apply windowSet_of_vars.
    rewrite showCamera_1_window. reflexivity.
  - destruct (addAppearanceBtn s) as [n|]; [|discriminate].
    injection H as <-. apply windowSet_of_vars.
    apply dispatch_window. intros u. apply addAppearance_1_window.
  - injection H as <-.
    apply windowSet_of_vars, updateClockButtonsState_windowVars.
  - destruct (nth_error (tasks s) i) as [a|] eqn:Hi; [|discriminate].
    destruct a, ans; cbn [resume] in H; try discriminate;
      injection H as <-.
    + apply windowSet_of_vars.
      exact (showCamera_2_window r (set_tasks _ s)).
    + apply windowSet_of_vars.
      exact (showCamera_3_window loaded (set_tasks _ s)).
    + apply windowSet_of_vars.
      exact (captureFace_2_window r (set_tasks _ s)).
    + apply windowSet_of_vars.
      exact (captureFace_3_window r (set_tasks _ s)).
    + apply windowSet_of_vars.
      exact (addAppearance_2_window r (set_tasks _ s)).
    + apply windowSet_of_vars.
      exact (addAppearance_3_window r (set_tasks _ s)).
    + apply windowSet_of_vars.
      exact (confirmAndProcess_2_window r (set_tasks _ s)).
    + apply windowSet_of_vars.
      exact (confirmAndProcess_3_window (Some r) (set_tasks _ s)).
    + intros _.
      exact (fetchStoreHours_2_windowSet r now now' (set_tasks _ s)).
Qed.

(** X5.  Whatever happens on the page, store hours are never set without a
    window: from a state where this holds (the page as loaded has neither)
    it holds after every sequence of turns, so the tests of
    [clockWindowStart] and [clockWindowEnd] in [updateClockButtonsState]
    never decide. *)
Theorem window_accompanies_hours (es : list Event) :
  forall s s', run es s = Some s' -> windowSet s -> windowSet s'.
Proof.
  induction es as [|e es IH]; intros s s' H Hs; cbn [run] in H.
  - injection H as <-. exact Hs.
  - destruct (step e s) as [s1|] eqn:Hstep; [|discriminate].
    apply (IH s1 s' H). exact (step_keeps_windowSet e s s1 Hstep Hs).
Qed.

Lemma window_accompanies_hours_witness :
  exists s',
    run [ Resume 0 (AnsStores
                      (StoresOk [store_of (Some t_09_00) (Some t_21_00)])
                      monday_10_15 monday_10_15);
          ClickClockIn ]
      (fetchStoreHours_1 kiosk) = Some s'
    /\ windowSet s'.
Proof.
  eexists. split; [vm_compute; reflexivity|].
  apply (window_accompanies_hours
           [ Resume 0 (AnsStores
                         (StoresOk [store_of (Some t_09_00) (Some t_21_00)])
                         monday_10_15 monday_10_15);
             ClickClockIn ]
           (fetchStoreHours_1 kiosk)).
  - vm_compute. reflexivity.
  - intros H. exfalso. apply H. reflexivity.
Defined.

(** ** The add-appearance listeners *)

Lemma addAppearance_1_sends (who : string) (sample : Sample) (s : State) :
  who <> "" ->
  capturedData s = Some sample ->
  let s' := addAppearance_1 (Some who) s in
  capturedData s' = Some sample
  /\ effects s'
     = effects s
       ++ [ApiAddAppearance who (descriptor sample) (imageDataUrl sample)]
  /\ tasks s' = tasks s ++ [AwAddAppearance].
Proof.
  intros Hwho Hd. apply String.eqb_neq in Hwho.
  cbv zeta. unfold addAppearance_1. rewrite Hwho, Hd.
  cbn. repeat split. exact Hd.
Qed.

Lemma addAppearance_1_refuses (name : option string) (s : State) :
  or_str name "" = "" \/ capturedData s = None ->
  exists m, addAppearance_1 name s = showError m TitleNone s.
Proof.
  unfold addAppearance_1. intros H.
  destruct name as [who|]; [|eexists; reflexivity].
  destruct (who =? "")%string eqn:Hw; [eexists; reflexivity|].
  destruct H as [H|H].
  - unfold or_str in H. rewrite Hw in H. apply String.eqb_neq in Hw.
    contradiction.
  - rewrite H. eexists. reflexivity.
Qed.

(** X6.  One listener is added at every capture that is not recognised and
    none is ever removed, and a click runs them all: with [n] listeners, a
    name and a sample, one click sends [n] enrollment requests for the same
    name, descriptor and image and leaves [n] calls in flight. *)
Theorem listeners_accumulate (n : nat) (who : string) (sample : Sample) :
  forall s,
    who <> "" ->
    addAppearanceBtn s = Some n ->
    capturedData s = Some sample ->
    (forall error,
        addAppearanceBtn (captureFace_3 (RecErr error) s) = Some (S n))
    /\ exists s',
         step (ClickAddAppearance (Some who)) s = Some s'
         /\ effects s'
            = effects s
              ++ repeat (ApiAddAppearance who (descriptor sample)
                           (imageDataUrl sample)) n
         /\ tasks s' = tasks s ++ repeat AwAddAppearance n.
Proof.
  intros s Hwho Hbtn Hd. split.
  - intros error. unfold captureFace_3, addListener. cbn.
    rewrite Hbtn. reflexivity.
  - cbn [step]. rewrite Hbtn. eexists. split; [reflexivity|].
    clear Hbtn. revert s Hd.
    induction n as [|n IH]; intros s Hd; cbn [dispatch repeat].
    + rewrite !app_nil_r. split; reflexivity.
    + destruct (addAppearance_1_sends who sample s Hwho Hd)
        as (Hd1 & He1 & Ht1).
      destruct (IH _ Hd1) as (He & Ht).
      rewrite He, Ht, He1, Ht1, <- !app_assoc. split; reflexivity.
Qed.

Lemma listeners_accumulate_witness :
  exists s s',
    run [ ClickCapture;
          Resume 0 (AnsCapture (CaptureOk face jpeg));
          Resume 0 (AnsRecognize (RecErr None));
          ClickRetake;
          Resume 0 (AnsCamera CameraOk);
          Resume 0 (AnsModels true);
          ClickCapture;
          Resume 0 (AnsCapture (CaptureOk face jpeg));
          Resume 0 (AnsRecognize (RecErr None)) ] kiosk = Some s
    /\ step (ClickAddAppearance (Some "Jane Doe")) s = Some s'
    /\ tasks s' = tasks s ++ repeat AwAddAppearance 2.
Proof.
  eexists. eexists. split; [vm_compute; reflexivity|].
  match goal with
  | |- step _ ?s = _ /\ _ =>
      destruct (listeners_accumulate 2 "Jane Doe"
                  {| descriptor := face; imageDataUrl := jpeg |} s)
        as (_ & s' & Hstep & _ & Ht)
  end.
  - discriminate.
  - reflexivity.
  - reflexivity.
  - split; [vm_compute; reflexivity|]. vm_compute. reflexivity.
Defined.

(** X7.  A click on the add-appearance button without a name, or when no
    sample is held, sends nothing and starts nothing however many listeners
    run: each of them only shows an error, and the sample, the pending
    action and the submit button stay as they were. *)
Theorem enrollment_needs_name_and_sample (n : nat) (name : option string) :
  forall s,
    addAppearanceBtn s = Some n ->
    or_str name "" = "" \/ capturedData s = None ->
    exists s' errors,
      step (ClickAddAppearance name) s = Some s'
      /\ effects s' = effects s ++ errors
      /\ List.length errors = n
      /\ Forall (fun e => exists m, e = ShowError m TitleNone) errors
      /\ tasks s' = tasks s
      /\ capturedData s' = capturedData s
      /\ currentAction s' = currentAction s
      /\ confirmPhotoBtn s' = confirmPhotoBtn s.
Proof.
  intros s Hbtn H. cbn [step]. rewrite Hbtn. clear Hbtn.
  revert s H.
  induction n as [|n IH]; intros s H; cbn [dispatch].
  - exists s, []. rewrite app_nil_r. repeat split. constructor.
  - destruct (addAppearance_1_refuses name s H) as (m & Hm).
    rewrite Hm.
    destruct (IH (showError m TitleNone s)) as
      (s' & errors & Hs' & He & Hlen & Hall & Ht & Hd & Ha & Hc).
    { destruct H as [H|H]; [left; exact H|right; exact H]. }
    injection Hs' as <-.
    eexists. exists (ShowError m TitleNone :: errors).
    split; [reflexivity|].
    rewrite He, Ht, Hd, Ha, Hc. cbn.
    rewrite <- app_assoc. repeat split.
    + cbn. rewrite Hlen. reflexivity.
    + constructor; [eexists; reflexivity|exact Hall].
Qed.

Lemma enrollment_needs_name_and_sample_witness :
  exists s' errors,
    step (ClickAddAppearance (Some ""))
      (set_addAppearanceBtn (Some 2%nat) kiosk) = Some s'
    /\ effects s' = errors
    /\ List.length errors = 2%nat
    /\ tasks s' = [].
Proof.
  destruct (enrollment_needs_name_and_sample 2 (Some "")
              (set_addAppearanceBtn (Some 2%nat) kiosk))
    as (s' & errors & Hstep & He & Hlen & _ & Ht & _).
  - reflexivity.
  - left. reflexivity.
  - exists s', errors. split; [exact Hstep|].
    split; [exact He|]. split; [exact Hlen|exact Ht].
Defined.

(** ** The status card *)

(** [find] returns the first element that passes the test. *)
Lemma find_first {A} (f : A -> bool) (l : list A) (x : A) :
  find f l = Some x <->
  exists before after,
    l = before ++ x :: after /\ f x = true
    /\ forallb (fun y => negb (f y)) before = true.
Proof.
  split.
  - induction l as [|y l IH]; cbn [find]; [discriminate|].
    destruct (f y) eqn:Hy.
    + intros H. injection H as <-.
      exists [], l. repeat split. exact Hy.
    + intros H. destruct (IH H) as (before & after & -> & Hx & Hb).
      exists (y :: before), after. cbn. rewrite Hy. repeat split; assumption.
  - intros (before & after & -> & Hx & Hb).
    induction before as [|y before IH]; cbn [app find forallb] in *.
    + rewrite Hx. reflexivity.
    + apply andb_true_iff in Hb. destruct Hb as [Hy Hb].
      apply negb_true_iff in Hy. rewrite Hy. exact (IH Hb).
Qed.

(** When the card is shown and what it names. *)
Lemma card_shown_iff (data : TodayResult) (c : StatusCard) :
  let c' := fetchCurrentClockStatus_2 data c in
  card_hidden c' = false <->
  exists before entry after,
    data = TodayOk (Some (before ++ entry :: after))
    /\ notClockedOut entry = true
    /\ forallb (fun e => negb (notClockedOut e)) before = true
    /\ card_name c' = or_str (en_employee_name entry) "Unknown Employee".
Proof.
  cbv zeta. unfold fetchCurrentClockStatus_2.
  destruct data as [[l|]|].
  - destruct (find notClockedOut l) as [entry|] eqn:Hfind.
    + apply find_first in Hfind.
      destruct Hfind as (before & after & -> & Hopen & Hclosed).
      split; [intros _|reflexivity].
      exists before, entry, after. repeat split; assumption.
    + split; [discriminate|].
      intros (before & entry & after & Hl & Hopen & Hclosed & _).
      injection Hl as ->.
      assert (find notClockedOut (before ++ entry :: after) = Some entry)
        as Hsome.
      { apply find_first. exists before, after. repeat split; assumption. }
      congruence.
  - split; [discriminate|].
    intros (before & entry & after & Hl & _). discriminate.
  - split; [discriminate|].
    intros (before & entry & after & Hl & _). discriminate.
Qed.

(** X8.  The status card is shown exactly when the answer lists an entry
    without a clock-out; it then names the first such entry (["Unknown
    Employee"] when that entry has no name) and its clock-out line always
    reads ["Not clocked out"]: the branch that prints a clock-out time is
    never taken.  In every other case, a failed request included, the card
    is hidden and its texts are left as they were. *)
Theorem status_card_shows_first_open_entry (data : TodayResult)
    (c : StatusCard) :
  let c' := fetchCurrentClockStatus_2 data c in
  (card_hidden c' = false <->
   exists before entry after,
     data = TodayOk (Some (before ++ entry :: after))
     /\ notClockedOut entry = true
     /\ forallb (fun e => negb (notClockedOut e)) before = true
     /\ card_name c' = or_str (en_employee_name entry) "Unknown Employee")
  /\ (card_hidden c' = false ->
      card_clock_out c' = CardLiteral "Not clocked out")
  /\ (card_hidden c' = true ->
      card_name c' = card_name c
      /\ card_clock_in c' = card_clock_in c
      /\ card_clock_out c' = card_clock_out c).
Proof.
  cbv zeta. split; [apply card_shown_iff|].
  unfold fetchCurrentClockStatus_2.
  destruct data as [[l|]|]; try (split; [discriminate|intros _; repeat split]).
  destruct (find notClockedOut l) as [entry|] eqn:Hfind;
    [|split; [discriminate|intros _; repeat split]].
  split; [|discriminate].
  intros _. cbn [card_clock_out].
  apply find_some in Hfind. destruct Hfind as [_ Hopen].
  unfold notClockedOut, truthy_str in Hopen.
  destruct (en_clock_out entry) as [t|]; [|reflexivity].
  apply negb_true_iff, negb_false_iff in Hopen.
  rewrite Hopen. reflexivity.
Qed.

(** X9.  [hasClockedInEmployee] answers [true] exactly when the request
    fails (it fails open) or the list has an entry whose status is
    ["clocked_in"] or that has no clock-out, and [false] when the answer
    has no list.  Whenever the status card is shown for an answer, the same
    answer makes [hasClockedInEmployee] true. *)
Theorem clocked_in_check_agrees_with_card (data : TodayResult)
    (c : StatusCard) :
  (hasClockedInEmployee_2 data = true <->
   data = TodayThrow
   \/ exists l emp,
        data = TodayOk (Some l) /\ In emp l
        /\ (en_status emp = Some "clocked_in" \/ notClockedOut emp = true))
  /\ (card_hidden (fetchCurrentClockStatus_2 data c) = false ->
      hasClockedInEmployee_2 data = true).
Proof.
  assert (hasClockedInEmployee_2 data = true <->
          data = TodayThrow
          \/ exists l emp,
               data = TodayOk (Some l) /\ In emp l
               /\ (en_status emp = Some "clocked_in"
                   \/ notClockedOut emp = true)) as Hiff.
  { destruct data as [[l|]|]; cbn [hasClockedInEmployee_2].
    - rewrite existsb_exists. split.
      + intros (emp & Hin & Hemp). right. exists l, emp.
        split; [reflexivity|]. split; [exact Hin|].
        apply orb_true_iff in Hemp. destruct Hemp as [Hst|Hout].
        * left. destruct (en_status emp) as [st|]; [|discriminate].
          apply String.eqb_eq in Hst. subst st. reflexivity.
        * right. exact Hout.
      + intros [Habs|(l' & emp & Hl & Hin & Hemp)]; [discriminate|].
        injection Hl as <-. exists emp. split; [exact Hin|].
        apply orb_true_iff. destruct Hemp as [Hst|Hout].
        * left. rewrite Hst. reflexivity.
        * right. exact Hout.
    - split; [discriminate|].
      intros [Habs|(l' & emp & Hl & _)]; discriminate.
    - split; [intros _; left; reflexivity|reflexivity]. }
  split; [exact Hiff|].
  intros Hshown. apply Hiff.
  apply card_shown_iff in Hshown.
  destruct Hshown as (before & entry & after & -> & Hopen & _).
  right. exists (before ++ entry :: after), entry.
  split; [reflexivity|]. split; [|right; exact Hopen].
  apply in_or_app. right. left. reflexivity.
Qed.

(** ** Errors of the clock calls *)

(** X10.  Where the error code and the metadata of a failed clock call
    come from: the [catch] block reports a code or a window only when the
    caught error carries [response.data] with it, or when its message
    parses as a JSON object with a non-empty [error] that has it.  The
    result is always a failure. *)
Theorem clock_error_code_sources (JSONparse : string -> option ErrorBody)
    (error : Thrown) :
  exists err code metadata,
    clockWithFace_catch JSONparse error = ClockErr err code metadata
    /\ (code <> None \/ metadata <> None ->
        (exists data,
            th_response_data error = Some data
            /\ eb_error_code data = code /\ eb_metadata data = metadata)
        \/ (exists m parsed,
               th_response_data error = None
               /\ th_message error = Some m
               /\ JSONparse m = Some parsed
               /\ truthy_str (eb_error parsed) = true
               /\ eb_error_code parsed = code
               /\ eb_metadata parsed = metadata)).
Proof.
  unfold clockWithFace_catch.
  destruct (th_response_data error) as [data|] eqn:Hdata.
  - do 3 eexists. split; [reflexivity|].
    intros _. left. exists data. repeat split.
  - destruct (th_message error) as [m|] eqn:Hm.
    + destruct (JSONparse m) as [parsed|] eqn:Hp.
      * destruct (truthy_str (eb_error parsed)) eqn:Ht.
        -- do 3 eexists. split; [reflexivity|].
           intros _. right. exists m, parsed. repeat split; assumption.
        -- do 3 eexists. split; [reflexivity|].
           cbn. intros [H|H]; congruence.
      * do 3 eexists. split; [reflexivity|].
        cbn. intros [H|H]; congruence.
    + do 3 eexists. split; [reflexivity|].
      cbn. intros [H|H]; congruence.
Qed.

(** X11.  A caught error without [response.data] (a plain [Error], which is
    what [apiPost] throws) whose message is not a JSON object with a
    non-empty [error] reaches [confirmAndProcess] as its message alone.
    The failure dialog then has the title for other errors, shows no
    window, and the store hours are requested again. *)
Theorem plain_error_has_no_code (JSONparse : string -> option ErrorBody)
    (error : Thrown) (s : State) :
  th_response_data error = None ->
  (forall m parsed,
      th_message error = Some m -> JSONparse m = Some parsed ->
      truthy_str (eb_error parsed) = false) ->
  clockWithFace_catch JSONparse error = ClockErr (th_message error) None None
  /\ exists what,
       effects
         (confirmAndProcess_3
            (Some (clockWithFace_catch JSONparse error)) s)
       = effects s
         ++ [ ShowError
                (MsgClockFailed what
                   (or_str (th_message error)
                      "Failed to process clock action") None)
                TitleError;
              ApiGetStores ].
Proof.
  intros Hdata Hparse.
  assert (clockWithFace_catch JSONparse error
          = ClockErr (th_message error) None None) as Hres.
  { assert (forall v : option string, or_opt v v = v) as Hor.
    { intros v. unfold or_opt. destruct (truthy_str v); reflexivity. }
    unfold clockWithFace_catch. rewrite Hdata.
    destruct (th_message error) as [m|] eqn:Hm; [|reflexivity].
    destruct (JSONparse m) as [parsed|] eqn:Hp.
    - rewrite (Hparse m parsed eq_refl Hp).
      cbn [eb_error eb_error_code eb_metadata]. rewrite Hor. reflexivity.
    - cbn [eb_error eb_error_code eb_metadata]. rewrite Hor. reflexivity. }
  split; [exact Hres|].
  rewrite Hres. unfold confirmAndProcess_3. cbn.
  eexists. rewrite <- app_assoc. reflexivity.
Qed.

Lemma plain_error_has_no_code_witness :
  clockWithFace_catch (fun _ => None)
    {| th_message := Some "Clock-in is only allowed during store hours";
       th_response_data := None |}
  = ClockErr (Some "Clock-in is only allowed during store hours") None None.
Proof.
  apply (plain_error_has_no_code (fun _ => None)
           {| th_message :=
                Some "Clock-in is only allowed during store hours";
              th_response_data := None |} kiosk).
  - reflexivity.
  - intros m parsed _ H. discriminate H.
Defined.

(** ** The error normaliser *)

(** X12.  A normalised error always has a non-empty error code and a
    status code that is not 0.  A non-empty code sent by the backend is
    kept whatever the status, and so is its metadata; without one the code
    is [SERVER_ERROR] exactly for the statuses from 500 on, and a missing
    status gives status code 500 but the code [UNKNOWN_ERROR]. *)
Theorem normalized_error_has_code (error : ErrValue) (statusCode : option Z)
    (requestId : string) :
  let n := normalizeError error statusCode requestId in
  let backend :=
    match error with
    | EvObject b => if truthy_str (eb_error_code b) then eb_error_code b
                    else None
    | _ => None
    end in
  n_error_code n <> ""
  /\ n_status_code n <> 0
  /\ n_request_id n = requestId
  /\ n_metadata n
     = match error with EvObject b => eb_metadata b | _ => None end
  /\ match backend with
     | Some c => n_error_code n = c
     | None =>
         (n_error_code n = "SERVER_ERROR"
          <-> exists code, statusCode = Some code /\ 500 <= code)
         /\ (statusCode = None ->
             n_error_code n = "UNKNOWN_ERROR" /\ n_status_code n = 500)
     end.
Proof.
  cbv zeta. unfold normalizeError, truthy_str.
  destruct error as [|t|[e m c md]];
    cbn [n_error_code n_status_code n_request_id n_metadata eb_error_code
         eb_metadata truthy_str];
    try (destruct c as [c|]; [destruct (String.eqb_spec c "")|]);
    cbn [negb]; subst;
    (destruct statusCode as [code|];
     [ destruct (Z.eqb_spec code 0), (Z.eqb_spec code 401),
         (Z.eqb_spec code 403), (Z.eqb_spec code 404),
         (Z.eqb_spec code 400), (Z.eqb_spec code 422),
         (Z.leb_spec 500 code); try lia
     | ]);
    cbn [fst snd];
    repeat match goal with
      | |- _ /\ _ => split
      | |- _ <-> _ => split
      | |- _ -> _ => intro
      end;
    try reflexivity; try discriminate; try assumption; try lia;
    try (exists code; split; [reflexivity|lia]);
    try match goal with
      | H : exists _, _ |- _ =>
          destruct H as (k & Hk & Hge); first [discriminate Hk |
            injection Hk as <-; lia]
      end.
Qed.

(** X13.  The message of a normalised error is the message it was given
    unless that message is missing, empty or the text ["An error occurred"]
    and the status is 401, 403, 404 or at least 500; so for these statuses
    the normalised message always says something, while for the others
    (400 and 422 among them) a missing or empty message stays as it is. *)
Theorem normalized_message_defaults (error : ErrValue)
    (statusCode : option Z) (requestId : string) :
  let n := normalizeError error statusCode requestId in
  let m := errorMessageOf error in
  (n_error n = m
   <-> genericMessage m && hasDefaultText statusCode = false)
  /\ (hasDefaultText statusCode = true -> genericMessage (n_error n) = false)
  /\ (hasDefaultText statusCode = false -> n_error n = m).
Proof.
  cbv zeta. unfold normalizeError, hasDefaultText. cbn [n_error].
  set (m := errorMessageOf error). clearbody m.
  destruct statusCode as [code|];
    [ destruct (Z.eqb_spec code 401), (Z.eqb_spec code 403),
        (Z.eqb_spec code 404), (Z.eqb_spec code 400),
        (Z.eqb_spec code 422), (Z.leb_spec 500 code); try lia
    | ];
    cbn [fst snd orb];
    destruct (genericMessage m) eqn:Hg; cbn [andb];
    repeat match goal with
      | |- _ /\ _ => split
      | |- _ <-> _ => split
      | |- _ -> _ => intro
      end;
    try reflexivity; try discriminate; try assumption;
    try (destruct m as [|t|b]; cbn in Hg |- *; try discriminate;
         match goal with
         | H : EmText _ = EmText _ |- _ =>
             injection H as <-; cbn in Hg; discriminate
         end).
Qed.

(** * Times of day as text *)

(** A test that holds on the first [k] numbers holds below [k]. *)
Lemma N_below (k : nat) (P : N -> bool) :
  forallb P (map N.of_nat (seq 0 k)) = true ->
  forall n, (n < N.of_nat k)%N -> P n = true.
Proof.
  intros H n Hn. rewrite forallb_forall in H. apply H.
  rewrite <- (N2Nat.id n). apply in_map. apply in_seq. lia.
Qed.

Lemma parsed_eqb_eq (p q : TimeUtils.Parsed) : parsed_eqb p q = true -> p = q.
Proof.
  destruct p as [[s|] v], q as [[t|] w]; cbn; try discriminate.
  - destruct (list_eq_dec N.eq_dec s t) as [->|]; [|discriminate].
    cbn. intros H. apply Bool.eqb_prop in H. subst. reflexivity.
  - intros H. apply Bool.eqb_prop in H. subst. reflexivity.
Qed.

(** Every canonical time has five characters and is read back as itself. *)
Lemma canonical_fixed (hh mm : N) :
  (hh <= 23)%N -> (mm <= 59)%N ->
  TimeUtils.normalizeTime (Some (TimeUtils.hhmm hh mm))
  = (Some (TimeUtils.hhmm hh mm), true)
  /\ List.length (TimeUtils.hhmm hh mm) = 5%nat.
Proof.
  intros Hh Hm.
  assert (forallb (fun h => forallb (canonicalFixed h)
                              (map N.of_nat (seq 0 60)))
            (map N.of_nat (seq 0 24)) = true) as Hall
      by (vm_compute; reflexivity).
  pose proof (N_below 24 _ Hall hh) as H1. cbv beta in H1.
  assert (hh < N.of_nat 24)%N as Hh' by lia.
  pose proof (N_below 60 _ (H1 Hh') mm) as H2.
  assert (mm < N.of_nat 60)%N as Hm' by lia.
  specialize (H2 Hm'). unfold canonicalFixed in H2.
  apply andb_true_iff in H2. destruct H2 as [Hn Hl].
  split; [apply parsed_eqb_eq, Hn|apply Nat.eqb_eq, Hl].
Qed.

Lemma parseDigitsOnly_valid (digits : TimeUtils.jsstring)
    (r : option TimeUtils.jsstring) :
  TimeUtils.parseDigitsOnly digits = (r, true) ->
  exists t, r = Some t /\ canonical t.
Proof.
  unfold TimeUtils.parseDigitsOnly, TimeUtils.invalid.
  destruct (List.length digits =? 0)%nat; [discriminate|].
  destruct (4 <? List.length digits)%nat; [discriminate|].
  match goal with
  | |- match ?f with _ => _ end = _ -> _ => destruct f as [[[hh|] [mm|]]|]
  end; try discriminate.
  destruct (23 <? hh)%N eqn:Hh, (59 <? mm)%N eqn:Hm; cbn [orb];
    try discriminate.
  intros H. injection H as <-.
  apply N.ltb_ge in Hh, Hm.
  exists (TimeUtils.hhmm hh mm). split; [reflexivity|].
  exists hh, mm. repeat split; assumption.
Qed.

(** The shape of a valid result of [normalizeTime]. *)
Lemma normalizeTime_valid (raw : option TimeUtils.jsstring)
    (r : option TimeUtils.jsstring) :
  TimeUtils.normalizeTime raw = (r, true) ->
  exists v t,
    raw = Some v /\ r = Some t
    /\ ((TimeUtils.trim v = [] /\ t = [])
        \/ (TimeUtils.trim v <> [] /\ canonical t)).
Proof.
  unfold TimeUtils.normalizeTime, TimeUtils.invalid.
  destruct raw as [v|]; [|discriminate].
  destruct (TimeUtils.trim v) as [|c s] eqn:Htrim.
  - intros H. injection H as <-. exists v, [].
    split; [reflexivity|]. split; [reflexivity|].
    left. split; [exact Htrim|reflexivity].
  - destruct (TimeUtils.colonByDigit (c :: s)).
    + destruct (TimeUtils.split (c :: s)) as [|a [|b [|x parts]]];
        try discriminate.
      set (ad := filter TimeUtils.isDigit a).
      set (bd := filter TimeUtils.isDigit b).
      intros H.
      assert (exists hh mm,
                 (Some (TimeUtils.hhmm hh mm),
                  (hh <=? 23)%N && (mm <=? 59)%N) = (r, true)) as Hcase.
      { destruct ad as [|a0 ad'], bd as [|b0 bd']; try discriminate;
          match type of H with
          | match ?x with _ => _ end = _ =>
              destruct x as [hh|]; try discriminate
          end;
          try match type of H with
            | match ?x with _ => _ end = _ =>
                destruct x as [mm|]; try discriminate
            end;
          eauto. }
      destruct Hcase as (hh & mm & Hcase). injection Hcase as <- Hv.
      apply andb_true_iff in Hv. destruct Hv as [Hh Hm].
      apply N.leb_le in Hh, Hm.
      exists v, (TimeUtils.hhmm hh mm).
      split; [reflexivity|]. split; [reflexivity|].
      right. split; [rewrite Htrim; discriminate|].
      exists hh, mm. repeat split; assumption.
    + intros H. apply parseDigitsOnly_valid in H.
      destruct H as (t & -> & Hc).
      exists v, t. split; [reflexivity|]. split; [reflexivity|].
      right. split; [rewrite Htrim; discriminate|exact Hc].
Qed.

(** X14.  Whatever [normalizeTime] accepts it returns in canonical form: a
    blank input gives the empty string, and every other accepted input
    gives a five-character [HH:MM] with [HH] up to 23 and [MM] up to 59.  A
    result is never valid without a text. *)
Theorem accepted_times_are_canonical (raw r : option TimeUtils.jsstring) :
  TimeUtils.normalizeTime raw = (r, true) ->
  exists v t,
    raw = Some v /\ r = Some t
    /\ ((TimeUtils.trim v = [] /\ t = [])
        \/ (TimeUtils.trim v <> [] /\ canonical t
            /\ List.length t = 5%nat)).
Proof.
  intros H. apply normalizeTime_valid in H.
  destruct H as (v & t & -> & -> & [[Hb Ht]|[Hb Hc]]).
  - exists v, t. split; [reflexivity|]. split; [reflexivity|].
    left. split; assumption.
  - exists v, t. split; [reflexivity|]. split; [reflexivity|].
    right. split; [exact Hb|]. split; [exact Hc|].
    destruct Hc as (hh & mm & Hh & Hm & ->).
    apply (canonical_fixed hh mm Hh Hm).
Qed.

Lemma accepted_times_are_canonical_witness :
  exists v t,
    Some (TimeUtils.js " 9:3 ") = Some v
    /\ Some (TimeUtils.js "09:03") = Some t
    /\ ((TimeUtils.trim v = [] /\ t = [])
        \/ (TimeUtils.trim v <> [] /\ canonical t
            /\ List.length t = 5%nat)).
Proof.
  apply (accepted_times_are_canonical (Some (TimeUtils.js " 9:3 "))
           (Some (TimeUtils.js "09:03"))).
  vm_compute. reflexivity.
Defined.

(** X15.  [normalizeTime] is idempotent on what it accepts: its output, fed
    back, is accepted and returned unchanged. *)
Theorem normalizeTime_idempotent (raw : option TimeUtils.jsstring)
    (t : TimeUtils.jsstring) :
  TimeUtils.normalizeTime raw = (Some t, true) ->
  TimeUtils.normalizeTime (Some t) = (Some t, true).
Proof.
  intros H. apply normalizeTime_valid in H.
  destruct H as (v & t' & _ & Ht & [[_ ->]|[_ Hc]]);
    injection Ht as ->.
  - reflexivity.
  - destruct Hc as (hh & mm & Hh & Hm & ->).
    apply (canonical_fixed hh mm Hh Hm).
Qed.

Lemma normalizeTime_idempotent_witness :
  TimeUtils.normalizeTime (Some (TimeUtils.js "09:30"))
  = (Some (TimeUtils.js "09:30"), true).
Proof.
  apply (normalizeTime_idempotent (Some (TimeUtils.js "930"))).
  vm_compute. reflexivity.
Defined.

(** X16.  [parseDigitsOnly] follows the rules of its header: one digit is
    an hour; two digits are an hour up to 23, a minute past midnight from
    24 to 59, and nothing from 60 on; three digits are an hour and a
    minute and four digits two of each, valid when in range and printed
    but invalid otherwise; no digit or more than four is nothing. *)
Theorem digits_only_rules (a b c d : N) :
  (a < 10)%N -> (b < 10)%N -> (c < 10)%N -> (d < 10)%N ->
  let v2 := (10 * a + b)%N in
  TimeUtils.parseDigitsOnly [digitChar a] = (Some (TimeUtils.hhmm a 0), true)
  /\ TimeUtils.parseDigitsOnly [digitChar a; digitChar b]
     = (if (v2 <=? 23)%N then (Some (TimeUtils.hhmm v2 0), true)
        else if (v2 <=? 59)%N then (Some (TimeUtils.hhmm 0 v2), true)
        else TimeUtils.invalid)
  /\ TimeUtils.parseDigitsOnly [digitChar a; digitChar b; digitChar c]
     = (Some (TimeUtils.hhmm a (10 * b + c)), (10 * b + c <=? 59)%N)
  /\ TimeUtils.parseDigitsOnly
       [digitChar a; digitChar b; digitChar c; digitChar d]
     = (Some (TimeUtils.hhmm (10 * a + b) (10 * c + d)),
        (10 * a + b <=? 23)%N && (10 * c + d <=? 59)%N)
  /\ TimeUtils.parseDigitsOnly [] = TimeUtils.invalid
  /\ (forall e rest,
         TimeUtils.parseDigitsOnly
           (digitChar a :: digitChar b :: digitChar c :: digitChar d
              :: e :: rest)
         = TimeUtils.invalid).
Proof.
  intros Ha Hb Hc Hd. cbv zeta.
  assert (forallb (fun a => forallb (fun b => forallb (fun c =>
            forallb (digitsRule a b c) digitValues) digitValues)
            digitValues) digitValues = true) as Hall
      by (vm_compute; reflexivity).
  pose proof (N_below 10 _ Hall a Ha) as H1. cbv beta in H1.
  pose proof (N_below 10 _ H1 b Hb) as H2. cbv beta in H2.
  pose proof (N_below 10 _ H2 c Hc) as H3. cbv beta in H3.
  pose proof (N_below 10 _ H3 d Hd) as H4.
  unfold digitsRule in H4. cbv zeta in H4.
  apply andb_true_iff in H4. destruct H4 as [H4 R4].
  apply andb_true_iff in H4. destruct H4 as [H4 R3].
  apply andb_true_iff in H4. destruct H4 as [R1 R2].
  apply parsed_eqb_eq in R1, R2, R3, R4.
  split; [exact R1|]. split; [exact R2|]. split; [exact R3|].
  split; [exact R4|]. split; [reflexivity|].
  intros e rest. reflexivity.
Qed.

Lemma digits_only_rules_witness :
  TimeUtils.parseDigitsOnly (TimeUtils.js "45")
  = (Some (TimeUtils.js "00:45"), true)
  /\ TimeUtils.parseDigitsOnly (TimeUtils.js "930")
     = (Some (TimeUtils.js "09:30"), true).
Proof.
  destruct (digits_only_rules 4 5 0 0) as (_ & R2 & _);
    try reflexivity.
  destruct (digits_only_rules 9 3 0 0) as (_ & _ & R3 & _);
    try reflexivity.
  split; [exact R2|exact R3].
Defined.

(** X17.  [validateTime] accepts a blank value exactly when the field is
    not required, and a value that is not blank exactly when
    [normalizeTime] accepts it, in which case [formatTime] prints it as a
    canonical [HH:MM]; a blank required value is refused with the text
    ["Time is required."]. *)
Theorem validateTime_accepts (value : option TimeUtils.jsstring)
    (required : bool) :
  (TimeUtils.validateTime value required = TimeUtils.Valid
   <-> (TimeUtils.blank value = true /\ required = false)
       \/ (TimeUtils.blank value = false
           /\ exists v,
                value = Some v
                /\ snd (TimeUtils.normalizeTime value) = true
                /\ canonical (TimeUtils.formatTime v)))
  /\ (TimeUtils.blank value && required = true ->
      TimeUtils.validateTime value required = TimeUtils.Invalid "Time is required.").
Proof.
  unfold TimeUtils.validateTime. split.
  - destruct (TimeUtils.blank value) eqn:Hb, required; cbn [andb negb].
    + split; [discriminate|].
      intros [[_ H]|[H _]]; discriminate.
    + split; [intros _; left; split; reflexivity|reflexivity].
    + destruct (TimeUtils.normalizeTime value) as [[t|] [|]] eqn:Hn.
      * split; [intros _|reflexivity]. right. split; [reflexivity|].
        pose proof (normalizeTime_valid _ _ Hn) as Hv.
        destruct Hv as (v & t' & -> & Ht & [[Hblank _]|[_ Hc]]).
        -- cbn in Hb. rewrite Hblank in Hb. discriminate.
        -- injection Ht as <-. exists v. split; [reflexivity|].
           split; [reflexivity|].
           unfold TimeUtils.formatTime. rewrite Hn. exact Hc.
      * split; [discriminate|].
        intros [[H _]|(_ & v & _ & H & _)]; discriminate.
      * pose proof (normalizeTime_valid _ _ Hn) as Hv.
        destruct Hv as (v & t' & _ & Ht & _). discriminate.
      * split; [discriminate|].
        intros [[H _]|(_ & v & _ & H & _)]; discriminate.
    + destruct (TimeUtils.normalizeTime value) as [[t|] [|]] eqn:Hn.
      * split; [intros _|reflexivity]. right. split; [reflexivity|].
        pose proof (normalizeTime_valid _ _ Hn) as Hv.
        destruct Hv as (v & t' & -> & Ht & [[Hblank _]|[_ Hc]]).
        -- cbn in Hb. rewrite Hblank in Hb. discriminate.
        -- injection Ht as <-. exists v. split; [reflexivity|].
           split; [reflexivity|].
           unfold TimeUtils.formatTime. rewrite Hn. exact Hc.
      * split; [discriminate|].
        intros [[H _]|(_ & v & _ & H & _)]; discriminate.
      * pose proof (normalizeTime_valid _ _ Hn) as Hv.
        destruct Hv as (v & t' & _ & Ht & _). discriminate.
      * split; [discriminate|].
        intros [[H _]|(_ & v & _ & H & _)]; discriminate.
  - intros H. rewrite andb_comm in H. rewrite H. reflexivity.
Qed.

(** ** The characters the time input lets through *)

Lemma stripFrom_true (v : TimeUtils.jsstring) :
  TimeUtils.stripFrom true v = filter TimeUtils.isDigit v.
Proof.
  induction v as [|c v IH]; cbn [TimeUtils.stripFrom filter]; [reflexivity|].
  rewrite andb_false_r. destruct (TimeUtils.isDigit c); rewrite IH;
    reflexivity.
Qed.

Lemma digits_of_digits (v : TimeUtils.jsstring) :
  filter TimeUtils.isDigit (filter TimeUtils.isDigit v)
  = filter TimeUtils.isDigit v.
Proof.
  induction v as [|x v IH]; cbn [filter]; [reflexivity|].
  destruct (TimeUtils.isDigit x) eqn:Hx; cbn [filter];
    rewrite ?Hx, IH; reflexivity.
Qed.

Lemma colons_of_digits (v : TimeUtils.jsstring) :
  colons (filter TimeUtils.isDigit v) = 0%nat.
Proof.
  unfold colons. induction v as [|c v IH]; cbn [filter]; [reflexivity|].
  destruct (TimeUtils.isDigit c) eqn:Hc; [|exact IH].
  cbn [filter]. destruct (N.eqb_spec TimeUtils.colon c) as [<-|_];
    [discriminate Hc|exact IH].
Qed.

(** X18.  [stripInvalidChars] keeps the digits of its input, all of them
    and in order, and the first colon; so its output holds only digits and
    at most one colon, and stripping twice is stripping once. *)
Theorem stripInvalidChars_keeps_digits_and_one_colon
    (v : TimeUtils.jsstring) :
  let out := TimeUtils.stripInvalidChars v in
  filter TimeUtils.isDigit out = filter TimeUtils.isDigit v
  /\ Forall (fun c => TimeUtils.isDigit c = true \/ c = TimeUtils.colon) out
  /\ (colons out <= 1)%nat
  /\ (colons out = 0%nat <-> colons v = 0%nat)
  /\ TimeUtils.stripInvalidChars out = out.
Proof.
  cbv zeta. unfold TimeUtils.stripInvalidChars.
  induction v as [|c v (IHd & IHf & IHc & IHz & IHi)];
    cbn [TimeUtils.stripFrom].
  - repeat split; try constructor; auto.
  - destruct (TimeUtils.isDigit c) eqn:Hd.
    + assert ((TimeUtils.colon =? c)%N = false) as Hnc.
      { apply N.eqb_neq. intros <-. discriminate Hd. }
      split; [cbn [filter]; rewrite Hd, IHd; reflexivity|].
      split; [constructor; [left; exact Hd|exact IHf]|].
      unfold colons in *. cbn [filter]. rewrite Hnc.
      split; [exact IHc|]. split; [exact IHz|].
      cbn [TimeUtils.stripFrom]. rewrite Hd, IHi. reflexivity.
    + destruct (N.eqb_spec c TimeUtils.colon) as [->|Hne]; cbn [andb negb].
      * rewrite stripFrom_true.
        split; [cbn [filter]; rewrite Hd; apply digits_of_digits|].
        split.
        { constructor; [right; reflexivity|].
          apply Forall_forall. intros x Hx. apply filter_In in Hx.
          left. apply Hx. }
        pose proof (colons_of_digits v) as Hz.
        unfold colons in *. cbn [filter]. rewrite N.eqb_refl.
        cbn [List.length]. rewrite Hz.
        split; [lia|]. split; [split; discriminate|].
        cbn [TimeUtils.stripFrom]. rewrite Hd, N.eqb_refl. cbn [andb negb].
        rewrite stripFrom_true. f_equal. apply digits_of_digits.
      * assert ((TimeUtils.colon =? c)%N = false) as Hnc.
        { apply N.eqb_neq. intros H. apply Hne. symmetry. exact H. }
        split; [cbn [filter]; rewrite Hd; exact IHd|].
        split; [exact IHf|].
        unfold colons in *. cbn [filter]. rewrite Hnc.
        split; [exact IHc|]. split; [exact IHz|exact IHi].
Qed.
